(** * Human Enrichment Service: the enrichment orchestrator

  A shallow embedding of [services/enrichment.go] (the functions
  [EnrichPerson] and [fetchData]) and of the [UpdatePerson] handler that
  re-enriches a stored person, together with the properties of the
  orchestrator: which fields a lookup may write, what is logged, which
  requests are sent and in which order.

  The Go code talks to three things outside itself: the network (through
  [net/http]), the JSON decoder (through [encoding/json]) and the
  process-wide logger (through [config.Log]).  The network is an input of
  the model, the decoder is modelled on JSON values, and the calls to the
  logger and to the HTTP client are recorded, in program order, in a trace
  that every effectful function returns next to its result. *)

From Stdlib Require Import String Ascii List ZArith Bool Lia.
Import ListNotations.

Set Warnings "-register-all".

Local Open Scope string_scope.
Local Open Scope list_scope.
Local Open Scope Z_scope.

(* ================================================================== *)
(** ** encoding/json, as far as [Decode] into the three response structs
     depends on it *)
(* ================================================================== *)

Module Json.

(** A JSON number keeps the way it was written: [strconv.ParseInt]
    accepts the literal for an [int] field only when it has neither a
    fraction nor an exponent. *)
Inductive number :=
| Integer (z : Z)                    (* -?digits, e.g. 34, 0, -7 *)
| Decimal (mantissa exponent : Z).   (* fraction or exponent: mantissa * 10^exponent *)

Inductive value :=
| JNull
| JBool (b : bool)
| JNumber (n : number)
| JString (s : string)
| JArray (items : list value)
| JObject (members : list (string * value)).   (* in the order of the text, duplicates kept *)

(** What [Decode] finds on the reader: one JSON value, or nothing it can
    use (the read failed, the body is empty or cut short, or the bytes are
    not JSON). *)
Inductive input :=
| Invalid
| Document (v : value).

Inductive kind := KNull | KBool | KNumber | KString | KArray | KObject.

Definition kindOf (v : value) : kind :=
  match v with
  | JNull => KNull
  | JBool _ => KBool
  | JNumber _ => KNumber
  | JString _ => KString
  | JArray _ => KArray
  | JObject _ => KObject
  end.

Inductive DecodeError :=
| InvalidInput                                     (* io error, io.EOF or *SyntaxError *)
| UnmarshalTypeError (Value : kind) (GoType : string).

Inductive result (A : Type) :=
| Ok (a : A)
| Fail (e : DecodeError).
Arguments Ok {A} a.
Arguments Fail {A} e.

Definition andThen {A B} (r : result A) (k : A -> result B) : result B :=
  match r with
  | Ok a => k a
  | Fail e => Fail e
  end.

(** *** Scalars *)

Definition minInt : Z := - 2 ^ 63.
Definition maxInt : Z := 2 ^ 63 - 1.

(** [literalStore] on a field of kind [int] (64 bits): [null] leaves the
    field as it is, an integer literal in range is stored, and anything
    else is an [UnmarshalTypeError]. *)
Definition storeInt (v : value) (cur : Z) : result Z :=
  match v with
  | JNull => Ok cur
  | JNumber (Integer z) =>
      if (minInt <=? z) && (z <=? maxInt) then Ok z
      else Fail (UnmarshalTypeError KNumber "int")
  | _ => Fail (UnmarshalTypeError (kindOf v) "int")
  end.

Definition storeString (v : value) (cur : string) : result string :=
  match v with
  | JNull => Ok cur
  | JString s => Ok s
  | _ => Fail (UnmarshalTypeError (kindOf v) "string")
  end.

(** A [float64] is kept as the literal [strconv.ParseFloat] rounded it
    from; no code of the service reads one. *)
Inductive float64 :=
| Float64Of (n : number).

Definition zeroFloat64 : float64 := Float64Of (Integer 0).

(** [ParseFloat] reports a range error exactly when the literal rounds to
    an infinity, that is from [2^1024 - 2^970] on in absolute value. *)
Definition float64Limit : Z := 2 ^ 1024 - 2 ^ 970.

Definition overflowsFloat64 (n : number) : bool :=
  match n with
  | Integer z => float64Limit <=? Z.abs z
  | Decimal m e =>
      if 0 <=? e then float64Limit <=? Z.abs m * 10 ^ e
      else float64Limit * 10 ^ (- e) <=? Z.abs m
  end.

Definition storeFloat64 (v : value) (cur : float64) : result float64 :=
  match v with
  | JNull => Ok cur
  | JNumber n =>
      if overflowsFloat64 n then Fail (UnmarshalTypeError KNumber "float64")
      else Ok (Float64Of n)
  | _ => Fail (UnmarshalTypeError (kindOf v) "float64")
  end.

(** *** Structs *)

Definition toUpper (c : ascii) : ascii :=
  let n := nat_of_ascii c in
  if ((97 <=? n) && (n <=? 122))%nat then ascii_of_nat (n - 32) else c.

Fixpoint foldName (s : string) : string :=
  match s with
  | EmptyString => EmptyString
  | String c rest => String (toUpper c) (foldName rest)
  end.

(** Case-insensitive match of a member name against a field name.  The
    field names of this package are ASCII without [k] and [s], the only
    two letters that a non-ASCII rune folds to, so folding the ASCII
    letters decides it. *)
Definition equalFold (a b : string) : bool :=
  String.eqb (foldName a) (foldName b).

Record field (T : Type) := Field {
  name : string;                       (* the [json:"..."] tag *)
  store : value -> T -> result T       (* decode a member's value into the field *)
}.
Arguments Field {T} name store.
Arguments name {T} f.
Arguments store {T} f.

(** The field a member name selects: an exact match first, then a
    case-insensitive one. *)
Definition findField {T} (fields : list (field T)) (key : string) : option (field T) :=
  match find (fun f => String.eqb (name f) key) fields with
  | Some f => Some f
  | None => find (fun f => equalFold (name f) key) fields
  end.

(** The members are decoded in the order of the text; a member that
    selects no field is skipped whatever its value.  The first type error
    is the one [Decode] returns. *)
Fixpoint object {T} (fields : list (field T)) (members : list (string * value)) (t : T)
  : result T :=
  match members with
  | [] => Ok t
  | (key, v) :: rest =>
      match findField fields key with
      | Some f => andThen (store f v t) (object fields rest)
      | None => object fields rest t
      end
  end.

Definition unmarshalStruct {T} (goType : string) (fields : list (field T))
           (v : value) (t : T) : result T :=
  match v with
  | JNull => Ok t
  | JObject members => object fields members t
  | _ => Fail (UnmarshalTypeError (kindOf v) goType)
  end.

(** *** Slices *)

(** Element [i] of the array is decoded into element [i] of the slice
    when the slice already has one (the field was matched before in the
    same object), and into a zero element otherwise; the slice ends up as
    long as the array.  A slice is modelled by its elements: the
    difference between nil and empty is not kept, and neither is the
    capacity, so an element that a shorter array cut off, and that a third
    match of the field could bring back, counts as zero. *)
Fixpoint array {T} (zero : T) (elem : value -> T -> result T)
         (items : list value) (cur : list T) : result (list T) :=
  match items with
  | [] => Ok []
  | v :: items' =>
      let '(slot, cur') := match cur with
                           | [] => (zero, [])
                           | c :: cs => (c, cs)
                           end in
      andThen (elem v slot) (fun e =>
      andThen (array zero elem items' cur') (fun es => Ok (e :: es)))
  end.

Definition unmarshalSlice {T} (goType : string) (zero : T)
           (elem : value -> T -> result T) (v : value) (cur : list T) : result (list T) :=
  match v with
  | JNull => Ok []
  | JArray items => array zero elem items cur
  | _ => Fail (UnmarshalTypeError (kindOf v) goType)
  end.

(** *** Decode *)

(** The types [Decode] is called on: what [target interface{}] stands
    for in [fetchData]. *)
Class Unmarshaler (T : Type) := unmarshal : value -> T -> result T.

Definition Decode {T} `{Unmarshaler T} (body : input) (target : T) : result T :=
  match body with
  | Invalid => Fail InvalidInput
  | Document v => unmarshal v target
  end.

End Json.

(* ================================================================== *)
(** ** fmt: errors and formatting *)
(* ================================================================== *)

Module Fmt.

(** A Go [error] value.  [Errorf] keeps its format and operands, so a
    wrapped error stays reachable as the operand of [%w]. *)
Inductive error :=
| NetError (msg : string)               (* what [client.Get] returns: *url.Error *)
| JsonError (e : Json.DecodeError)      (* what [Decode] returns *)
| ErrRecordNotFound                     (* gorm.ErrRecordNotFound *)
| LibError (msg : string)               (* any other error of gorm or of gin's binding *)
| Errorf (format : string) (args : list arg)
with arg :=
| AString (s : string)
| AInt (z : Z)
| AError (e : error).

(** [fmt.Sprintf] for the one use the package has: string operands under
    [%s], written as they are.  A missing operand prints as Go prints it. *)
Fixpoint Sprintf (format : string) (args : list string) : string :=
  match format with
  | EmptyString => EmptyString
  | String "%" (String "s" rest) =>
      match args with
      | a :: args' => a ++ Sprintf rest args'
      | [] => "%!s(MISSING)" ++ Sprintf rest []
      end
  | String c rest => String c (Sprintf rest args)
  end.

End Fmt.

(* ================================================================== *)
(** ** models: the person record *)
(* ================================================================== *)

Module Models.

(** Modelled from the spec: the declaration of [models.Person] is not among
    the sources.  Its fields are those of the spec's data model and of the
    Swagger definition [models.Person]; [Patronymic], [Age], [Gender] and
    [Nationality] are pointers in Go ([EnrichPerson] assigns addresses to
    them), nil standing for absent. *)
Record Person := {
  ID : Z;
  Name : string;
  Surname : string;
  Patronymic : option string;
  Age : option Z;
  Gender : option string;
  Nationality : option string
}.

(** [person.Age = &v], [person.Gender = &v], [person.Nationality = &v]. *)
Definition setAge (p : Person) (v : option Z) : Person :=
  {| ID := ID p; Name := Name p; Surname := Surname p; Patronymic := Patronymic p;
     Age := v; Gender := Gender p; Nationality := Nationality p |}.

Definition setGender (p : Person) (v : option string) : Person :=
  {| ID := ID p; Name := Name p; Surname := Surname p; Patronymic := Patronymic p;
     Age := Age p; Gender := v; Nationality := Nationality p |}.

Definition setNationality (p : Person) (v : option string) : Person :=
  {| ID := ID p; Name := Name p; Surname := Surname p; Patronymic := Patronymic p;
     Age := Age p; Gender := Gender p; Nationality := v |}.

Definition setName (p : Person) (v : string) : Person :=
  {| ID := ID p; Name := v; Surname := Surname p; Patronymic := Patronymic p;
     Age := Age p; Gender := Gender p; Nationality := Nationality p |}.

Definition setSurname (p : Person) (v : string) : Person :=
  {| ID := ID p; Name := Name p; Surname := v; Patronymic := Patronymic p;
     Age := Age p; Gender := Gender p; Nationality := Nationality p |}.

Definition setPatronymic (p : Person) (v : option string) : Person :=
  {| ID := ID p; Name := Name p; Surname := Surname p; Patronymic := v;
     Age := Age p; Gender := Gender p; Nationality := Nationality p |}.

(** [PersonInput], the body of a create or update request. *)
Record PersonInput := {
  InputName : string;
  InputSurname : string;
  InputPatronymic : option string
}.

End Models.

(* ================================================================== *)
(** ** Effects: the trace of logger and network calls *)
(* ================================================================== *)

Module Effect.

(** The levels [config.Log] is called at.  [InitLogger] sets the logger to
    [logrus.DebugLevel], so every call prints. *)
Inductive level := DebugLevel | InfoLevel | WarnLevel | ErrorLevel.

(** What a handler answers with: [gin.H{"error": ...}] or the person. *)
Inductive payload :=
| ErrorBody (msg : string)
| ErrorText (err : Fmt.error)                     (* [err.Error()] *)
| PersonBody (p : Models.Person).

Inductive event :=
| Logged (lvl : level) (format : string) (args : list Fmt.arg)
| Requested (url : string)                        (* an HTTP GET left the client *)
| Saved (p : Models.Person)                       (* [db.DB.Save] was called on the person *)
| Replied (status : Z) (body : payload).          (* [c.JSON] *)

(** A computation returns its result with the events it caused, oldest
    first. *)
Definition M (A : Type) : Type := A * list event.

Definition ret {A} (a : A) : M A := (a, []).

Definition bind {A B} (m : M A) (k : A -> M B) : M B :=
  let '(a, t1) := m in
  let '(b, t2) := k a in
  (b, t1 ++ t2).

Definition emit (e : event) : M unit := (tt, [e]).

Definition result {A} (m : M A) : A := fst m.
Definition trace {A} (m : M A) : list event := snd m.

(** The URLs requested, in order. *)
Fixpoint requests (t : list event) : list string :=
  match t with
  | [] => []
  | Requested url :: t' => url :: requests t'
  | _ :: t' => requests t'
  end.

(** Whether a call to the logger at level [lvl] with format [format] is in
    the trace, whatever its operands. *)
Definition logged (lvl : level) (format : string) (t : list event) : Prop :=
  exists args, In (Logged lvl format args) t.

End Effect.

Import Effect.

Notation "x <- m ;; k" := (bind m (fun x => k))
  (at level 61, m at next level, right associativity).
Notation "m ;; k" := (bind m (fun _ => k))
  (at level 61, right associativity).

(* ================================================================== *)
(** ** config: the process-wide logger *)
(* ================================================================== *)

Module Config.

(** [config.Log.Debugf], [Infof], [Warnf], [Errorf]: the call is recorded
    with its format and operands.  [main] calls [InitLogger] before any
    handler runs, so [config.Log] is never nil here. *)
Definition Debugf (format : string) (args : list Fmt.arg) : M unit :=
  emit (Logged DebugLevel format args).

Definition Infof (format : string) (args : list Fmt.arg) : M unit :=
  emit (Logged InfoLevel format args).

Definition Warnf (format : string) (args : list Fmt.arg) : M unit :=
  emit (Logged WarnLevel format args).

Definition Errorf (format : string) (args : list Fmt.arg) : M unit :=
  emit (Logged ErrorLevel format args).

(** [config.Log.Info] with a single string operand. *)
Definition Info (msg : string) : M unit :=
  emit (Logged InfoLevel msg []).

End Config.

(* ================================================================== *)
(** ** net/http: the client *)
(* ================================================================== *)

Module Http.

Definition StatusOK : Z := 200.

Record Response := {
  StatusCode : Z;
  Body : Json.input
}.

(** Nanoseconds, as [time.Duration]. *)
Definition Duration := Z.
Definition Second : Duration := 1000000000.

(** What a GET of a URL yields under a given client timeout: an error
    (no connection, time out, a URL the client refuses, ...) or a
    response.  This is the model's input: the three services and the
    network between. *)
Definition Network := Duration -> string -> Fmt.error + Response.

Record Client := {
  Timeout : Duration;
  Transport : Network
}.

Definition Get (c : Client) (url : string) : M (Fmt.error + Response) :=
  emit (Requested url) ;;
  ret (Transport c (Timeout c) url).

(** The network that answers [url] with [r] and every other URL as [net]
    does. *)
Definition answering (net : Network) (url : string) (r : Fmt.error + Response) : Network :=
  fun d u => if String.eqb u url then r else net d u.

End Http.

(* ================================================================== *)
(** ** services: enrichment.go *)
(* ================================================================== *)

Module Services.

Import Fmt.

Record AgifyResponse := {
  Age : Z                                 (* json:"age" *)
}.

Record GenderizeResponse := {
  Gender : string                         (* json:"gender" *)
}.

(** An element of [NationalizeResponse.Country]. *)
Record NationalizeCountry := {
  CountryID : string;                     (* json:"country_id" *)
  Probability : Json.float64              (* json:"probability" *)
}.

Record NationalizeResponse := {
  Country : list NationalizeCountry       (* json:"country" *)
}.

(** The zero values [var agifyRes AgifyResponse] and its likes start from. *)
Definition zeroAgify : AgifyResponse := {| Age := 0 |}.
Definition zeroGenderize : GenderizeResponse := {| Gender := "" |}.
Definition zeroCountry : NationalizeCountry :=
  {| CountryID := ""; Probability := Json.zeroFloat64 |}.
Definition zeroNationalize : NationalizeResponse := {| Country := [] |}.

#[global] Instance unmarshalAgify : Json.Unmarshaler AgifyResponse :=
  Json.unmarshalStruct "services.AgifyResponse"
    [ Json.Field "age" (fun v t =>
        Json.andThen (Json.storeInt v (Age t)) (fun a => Json.Ok {| Age := a |})) ].

#[global] Instance unmarshalGenderize : Json.Unmarshaler GenderizeResponse :=
  Json.unmarshalStruct "services.GenderizeResponse"
    [ Json.Field "gender" (fun v t =>
        Json.andThen (Json.storeString v (Gender t)) (fun g => Json.Ok {| Gender := g |})) ].

Definition unmarshalCountry : Json.value -> NationalizeCountry -> Json.result NationalizeCountry :=
  Json.unmarshalStruct "struct"
    [ Json.Field "country_id" (fun v t =>
        Json.andThen (Json.storeString v (CountryID t)) (fun c =>
        Json.Ok {| CountryID := c; Probability := Probability t |}));
      Json.Field "probability" (fun v t =>
        Json.andThen (Json.storeFloat64 v (Probability t)) (fun p =>
        Json.Ok {| CountryID := CountryID t; Probability := p |})) ].

#[global] Instance unmarshalNationalize : Json.Unmarshaler NationalizeResponse :=
  Json.unmarshalStruct "services.NationalizeResponse"
    [ Json.Field "country" (fun v t =>
        Json.andThen (Json.unmarshalSlice "[]struct" zeroCountry unmarshalCountry v (Country t))
          (fun cs => Json.Ok {| Country := cs |})) ].

(** [fetchData] sends a GET to [url] and decodes the JSON answer into
    [target].  It returns the error, or nil together with the target as
    decoded; on an error the caller never reads the target. *)
Definition fetchData {T} `{Json.Unmarshaler T}
           (client : Http.Client) (url : string) (target : T) : M (error + T) :=
  Config.Debugf "Выполнение HTTP-запроса к: %s" [AString url] ;;
  got <- Http.Get client url ;;
  match got with
  | inl err =>
      ret (inl (Errorf "ошибка при выполнении HTTP-запроса к %s: %w" [AString url; AError err]))
  | inr resp =>
      if negb (Http.StatusCode resp =? Http.StatusOK) then
        ret (inl (Errorf "получен некорректный статус-код от %s: %d"
                         [AString url; AInt (Http.StatusCode resp)]))
      else
        match Json.Decode (Http.Body resp) target with
        | Json.Fail e =>
            ret (inl (Errorf "ошибка при парсинге JSON-ответа от %s: %w"
                             [AString url; AError (JsonError e)]))
        | Json.Ok decoded =>
            Config.Debugf "Успешный ответ от: %s" [AString url] ;;
            ret (inr decoded)
        end
  end.

Definition ageURL (name : string) : string :=
  Sprintf "https://api.agify.io/?name=%s" [name].
Definition genderURL (name : string) : string :=
  Sprintf "https://api.genderize.io/?name=%s" [name].
Definition nationalityURL (name : string) : string :=
  Sprintf "https://api.nationalize.io/?name=%s" [name].

(** The client [EnrichPerson] builds: a five-second timeout over the
    default transport. *)
Definition newClient (net : Http.Network) : Http.Client :=
  {| Http.Timeout := 5 * Http.Second; Http.Transport := net |}.

(** [EnrichPerson] tries to fill [Age], [Gender] and [Nationality] of the
    person from the three services.  It returns the person as the pointer
    leaves it, and the error ([None] is nil). *)
Definition EnrichPerson (net : Http.Network) (person : Models.Person)
  : M (Models.Person * option error) :=
  Config.Debugf "Начинаем обогащение данных для человека: %s" [AString (Models.Name person)] ;;
  let client := newClient net in

  (* agify.io *)
  let ageURL := ageURL (Models.Name person) in
  fetched <- fetchData client ageURL zeroAgify ;;
  person <- match fetched with
            | inl err =>
                Config.Warnf "Не удалось обогатить возраст для %s: %v"
                             [AString (Models.Name person); AError err] ;;
                ret person
            | inr agifyRes =>
                if negb (Age agifyRes =? 0) then
                  let person := Models.setAge person (Some (Age agifyRes)) in
                  Config.Debugf "Обогащен возраст для %s: %d"
                                [AString (Models.Name person); AInt (Age agifyRes)] ;;
                  ret person
                else ret person
            end ;;

  (* genderize.io *)
  let genderURL := genderURL (Models.Name person) in
  fetched <- fetchData client genderURL zeroGenderize ;;
  person <- match fetched with
            | inl err =>
                Config.Warnf "Не удалось обогатить пол для %s: %v"
                             [AString (Models.Name person); AError err] ;;
                ret person
            | inr genderizeRes =>
                if negb (String.eqb (Gender genderizeRes) "") then
                  let person := Models.setGender person (Some (Gender genderizeRes)) in
                  Config.Debugf "Обогащен пол для %s: %s"
                                [AString (Models.Name person); AString (Gender genderizeRes)] ;;
                  ret person
                else ret person
            end ;;

  (* nationalize.io *)
  let nationalityURL := nationalityURL (Models.Name person) in
  fetched <- fetchData client nationalityURL zeroNationalize ;;
  person <- match fetched with
            | inl err =>
                Config.Warnf "Не удалось обогатить национальность для %s: %v"
                             [AString (Models.Name person); AError err] ;;
                ret person
            | inr nationalizeRes =>
                match Country nationalizeRes with
                | first :: _ =>
                    let person := Models.setNationality person (Some (CountryID first)) in
                    Config.Debugf "Обогащена национальность для %s: %s"
                                  [AString (Models.Name person); AString (CountryID first)] ;;
                    ret person
                | [] => ret person
                end
            end ;;

  Config.Debugf "Завершено обогащение данных для человека: %s" [AString (Models.Name person)] ;;
  ret (person, None).

End Services.

(* ================================================================== *)
(** ** gorm and gin, as far as [UpdatePerson] uses them *)
(* ================================================================== *)

Module Gorm.

(** The database as the handler sees it: what [First] finds under an id,
    and whether [Save] of a person fails. *)
Record DB := {
  First : string -> Fmt.error + Models.Person;
  SaveError : Models.Person -> option Fmt.error
}.

Definition Save (db : DB) (p : Models.Person) : M (option Fmt.error) :=
  emit (Saved p) ;;
  ret (SaveError db p).

End Gorm.

Module Gin.

(** The request: its path parameters and what [ShouldBindJSON] makes of
    its body. *)
Record Context := {
  Param : string -> string;
  ShouldBindJSON : Fmt.error + Models.PersonInput
}.

Definition JSON (status : Z) (body : payload) : M unit :=
  emit (Replied status body).

End Gin.

(* ================================================================== *)
(** ** handlers: UpdatePerson *)
(* ================================================================== *)

Module Handlers.

Import Fmt.

Definition StatusBadRequest : Z := 400.
Definition StatusNotFound : Z := 404.
Definition StatusInternalServerError : Z := 500.

(** [UpdatePerson] loads the person, overwrites the fields the request
    carries, enriches the person again and saves it. *)
Definition UpdatePerson (net : Http.Network) (db : Gorm.DB) (c : Gin.Context) : M unit :=
  Config.Info "Handling UpdatePerson request" ;;
  let id := Gin.Param c "id" in
  match Gorm.First db id with
  | inl ErrRecordNotFound =>
      Config.Warnf "Person with ID %s not found for update" [AString id] ;;
      Gin.JSON StatusNotFound (ErrorBody "Person not found")
  | inl err =>
      Config.Errorf "Error finding person for update with ID %s: %v" [AString id; AError err] ;;
      Gin.JSON StatusInternalServerError (ErrorBody "Failed to retrieve person for update")
  | inr existingPerson =>
      match Gin.ShouldBindJSON c with
      | inl err =>
          Config.Warnf "Invalid input for UpdatePerson with ID %s: %v" [AString id; AError err] ;;
          Gin.JSON StatusBadRequest (ErrorText err)
      | inr updateInput =>
          let existingPerson :=
            if negb (String.eqb (Models.InputName updateInput) "")
            then Models.setName existingPerson (Models.InputName updateInput)
            else existingPerson in
          let existingPerson :=
            if negb (String.eqb (Models.InputSurname updateInput) "")
            then Models.setSurname existingPerson (Models.InputSurname updateInput)
            else existingPerson in
          let existingPerson :=
            match Models.InputPatronymic updateInput with
            | Some _ => Models.setPatronymic existingPerson (Models.InputPatronymic updateInput)
            | None => existingPerson
            end in
          Config.Debugf "Re-enriching person with ID %s after update attempt" [AString id] ;;
          enriched <- Services.EnrichPerson net existingPerson ;;
          let '(existingPerson, err) := enriched in
          match err with
          | Some err =>
              Config.Errorf "Error re-enriching person data for ID %s: %v" [AString id; AError err]
          | None => ret tt
          end ;;
          failed <- Gorm.Save db existingPerson ;;
          match failed with
          | Some err =>
              Config.Errorf "Error updating person with ID %s in DB: %v" [AString id; AError err] ;;
              Gin.JSON StatusInternalServerError (ErrorBody "Failed to update person")
          | None =>
              Config.Infof "Successfully updated person with ID: %s" [AString id] ;;
              Gin.JSON Http.StatusOK (PersonBody existingPerson)
          end
      end
  end.

(** The persons [db.DB.Save] was called on, in order. *)
Fixpoint saved (t : list event) : list Models.Person :=
  match t with
  | [] => []
  | Saved p :: t' => p :: saved t'
  | _ :: t' => saved t'
  end.

End Handlers.

(* ================================================================== *)
(** ** The vocabulary of the properties *)
(* ================================================================== *)

Module Enrichment.

Import Fmt Services.

(** What [EnrichPerson] leaves in the person, what it returns, and what
    it logs and requests on the way. *)
Definition enriched (net : Http.Network) (p : Models.Person) : Models.Person :=
  fst (result (EnrichPerson net p)).

Definition returned (net : Http.Network) (p : Models.Person) : option error :=
  snd (result (EnrichPerson net p)).

Definition log (net : Http.Network) (p : Models.Person) : list event :=
  trace (EnrichPerson net p).

(** The three calls of [fetchData] in [EnrichPerson], by what they return. *)
Definition lookupAge (net : Http.Network) (name : string) : error + AgifyResponse :=
  result (fetchData (newClient net) (ageURL name) zeroAgify).

Definition lookupGender (net : Http.Network) (name : string) : error + GenderizeResponse :=
  result (fetchData (newClient net) (genderURL name) zeroGenderize).

Definition lookupNationality (net : Http.Network) (name : string)
  : error + NationalizeResponse :=
  result (fetchData (newClient net) (nationalityURL name) zeroNationalize).

Inductive lookup := AgeLookup | GenderLookup | NationalityLookup.

Definition lookupURL (l : lookup) (name : string) : string :=
  match l with
  | AgeLookup => ageURL name
  | GenderLookup => genderURL name
  | NationalityLookup => nationalityURL name
  end.

(** The error of a lookup, [None] when [fetchData] returned nil. *)
Definition failure (net : Http.Network) (name : string) (l : lookup) : option error :=
  match l with
  | AgeLookup => match lookupAge net name with inl err => Some err | inr _ => None end
  | GenderLookup => match lookupGender net name with inl err => Some err | inr _ => None end
  | NationalityLookup =>
      match lookupNationality net name with inl err => Some err | inr _ => None end
  end.

(** Two persons hold the same in the field a lookup writes. *)
Definition sameField (l : lookup) (p q : Models.Person) : Prop :=
  match l with
  | AgeLookup => Models.Age p = Models.Age q
  | GenderLookup => Models.Gender p = Models.Gender q
  | NationalityLookup => Models.Nationality p = Models.Nationality q
  end.

(** The member of the response a lookup reads. *)
Definition memberOf (l : lookup) : string :=
  match l with
  | AgeLookup => "age"
  | GenderLookup => "gender"
  | NationalityLookup => "country"
  end.

(** An object none of whose member names selects the member a lookup
    reads. *)
Definition lacks (l : lookup) (members : list (string * Json.value)) : Prop :=
  forall key v, In (key, v) members -> Json.equalFold (memberOf l) key = false.

(** The formats of the warning and of the success note of each lookup, as
    [EnrichPerson] passes them to the logger. *)
Definition warningOf (l : lookup) : string :=
  match l with
  | AgeLookup => "Не удалось обогатить возраст для %s: %v"
  | GenderLookup => "Не удалось обогатить пол для %s: %v"
  | NationalityLookup => "Не удалось обогатить национальность для %s: %v"
  end.

Definition noteOf (l : lookup) : string :=
  match l with
  | AgeLookup => "Обогащен возраст для %s: %d"
  | GenderLookup => "Обогащен пол для %s: %s"
  | NationalityLookup => "Обогащена национальность для %s: %s"
  end.

(** A logger call without its operands: two traces with the same headings
    made the same calls in the same order. *)
Definition heading (e : event) : event :=
  match e with
  | Logged lvl format _ => Logged lvl format []
  | _ => e
  end.

(** [logged], decided. *)
Definition levelEqb (a b : level) : bool :=
  match a, b with
  | DebugLevel, DebugLevel | InfoLevel, InfoLevel
  | WarnLevel, WarnLevel | ErrorLevel, ErrorLevel => true
  | _, _ => false
  end.

Definition loggedb (lvl : level) (format : string) (t : list event) : bool :=
  existsb (fun e => match e with
                    | Logged lvl' format' _ => levelEqb lvl' lvl && String.eqb format' format
                    | _ => false
                    end) t.

(** The effect of each lookup on the person, and what it adds to the log
    after [fetchData] has returned. *)
Definition mergeAge (r : error + AgifyResponse) (p : Models.Person) : Models.Person :=
  match r with
  | inr a => if Age a =? 0 then p else Models.setAge p (Some (Age a))
  | inl _ => p
  end.

Definition mergeGender (r : error + GenderizeResponse) (p : Models.Person) : Models.Person :=
  match r with
  | inr g => if String.eqb (Gender g) "" then p else Models.setGender p (Some (Gender g))
  | inl _ => p
  end.

Definition mergeNationality (r : error + NationalizeResponse) (p : Models.Person)
  : Models.Person :=
  match r with
  | inr n => match Country n with
             | first :: _ => Models.setNationality p (Some (CountryID first))
             | [] => p
             end
  | inl _ => p
  end.

Definition noteAge (name : string) (r : error + AgifyResponse) : list event :=
  match r with
  | inl err => [Logged WarnLevel (warningOf AgeLookup) [AString name; AError err]]
  | inr a => if Age a =? 0 then []
             else [Logged DebugLevel (noteOf AgeLookup) [AString name; AInt (Age a)]]
  end.

Definition noteGender (name : string) (r : error + GenderizeResponse) : list event :=
  match r with
  | inl err => [Logged WarnLevel (warningOf GenderLookup) [AString name; AError err]]
  | inr g => if String.eqb (Gender g) "" then []
             else [Logged DebugLevel (noteOf GenderLookup) [AString name; AString (Gender g)]]
  end.

Definition noteNationality (name : string) (r : error + NationalizeResponse) : list event :=
  match r with
  | inl err => [Logged WarnLevel (warningOf NationalityLookup) [AString name; AError err]]
  | inr n => match Country n with
             | first :: _ =>
                 [Logged DebugLevel (noteOf NationalityLookup)
                         [AString name; AString (CountryID first)]]
             | [] => []
             end
  end.

(** What [fetchData] logs and requests, given what it returns. *)
Definition fetchTrace {T} (url : string) (r : error + T) : list event :=
  Logged DebugLevel "Выполнение HTTP-запроса к: %s" [AString url]
  :: Requested url
  :: match r with
     | inr _ => [Logged DebugLevel "Успешный ответ от: %s" [AString url]]
     | inl _ => []
     end.

(** The part of the trace that belongs to one lookup: the call of
    [fetchData] and the warning or note that follows it. *)
Definition step (net : Http.Network) (name : string) (l : lookup) : list event :=
  match l with
  | AgeLookup =>
      fetchTrace (ageURL name) (lookupAge net name) ++ noteAge name (lookupAge net name)
  | GenderLookup =>
      fetchTrace (genderURL name) (lookupGender net name)
      ++ noteGender name (lookupGender net name)
  | NationalityLookup =>
      fetchTrace (nationalityURL name) (lookupNationality net name)
      ++ noteNationality name (lookupNationality net name)
  end.

(** What [fetchData] returns, given what the client got for the URL. *)
Definition outcome {T} `{Json.Unmarshaler T}
           (url : string) (got : error + Http.Response) (target : T) : error + T :=
  match got with
  | inl err =>
      inl (Errorf "ошибка при выполнении HTTP-запроса к %s: %w" [AString url; AError err])
  | inr resp =>
      if Http.StatusCode resp =? 200 then
        match Json.Decode (Http.Body resp) target with
        | Json.Ok decoded => inr decoded
        | Json.Fail e =>
            inl (Errorf "ошибка при парсинге JSON-ответа от %s: %w"
                        [AString url; AError (JsonError e)])
        end
      else
        inl (Errorf "получен некорректный статус-код от %s: %d"
                    [AString url; AInt (Http.StatusCode resp)])
  end.

(** The network's answer to a lookup of [EnrichPerson]. *)
Definition answer (net : Http.Network) (name : string) (l : lookup)
  : error + Http.Response :=
  net (5 * Http.Second) (lookupURL l name).

(** A response with status 200 and a JSON body. *)
Definition ok (v : Json.value) : error + Http.Response :=
  inr {| Http.StatusCode := 200; Http.Body := Json.Document v |}.

(** The body that spells the zero value of the member a lookup reads. *)
Definition zeroBody (l : lookup) : Json.value :=
  match l with
  | AgeLookup => Json.JObject [("age", Json.JNumber (Json.Integer 0))]
  | GenderLookup => Json.JObject [("gender", Json.JString "")]
  | NationalityLookup => Json.JObject [("country", Json.JArray [])]
  end.

End Enrichment.

(* ================================================================== *)
(** ** Concrete persons, bodies and networks *)
(* ================================================================== *)

Module Scenario.

Import Fmt Services Enrichment.

Definition int (z : Z) : Json.value := Json.JNumber (Json.Integer z).

(** [{"count":1094,"name":<name>,"age":<age>}] *)
Definition ageBody (name : string) (age : Z) : Json.value :=
  Json.JObject [("count", int 1094); ("name", Json.JString name); ("age", int age)].

(** [{"count":1094,"name":<name>,"gender":<gender>,"probability":0.99}] *)
Definition genderBody (name gender : string) : Json.value :=
  Json.JObject [("count", int 1094); ("name", Json.JString name);
                ("gender", Json.JString gender);
                ("probability", Json.JNumber (Json.Decimal 99 (-2)))].

(** [{"country_id":<code>,"probability":<tenths>/10}] *)
Definition country (code : string) (tenths : Z) : Json.value :=
  Json.JObject [("country_id", Json.JString code);
                ("probability", Json.JNumber (Json.Decimal tenths (-1)))].

(** [{"count":1094,"name":<name>,"country":[...]}] *)
Definition nationalityBody (name : string) (countries : list Json.value) : Json.value :=
  Json.JObject [("count", int 1094); ("name", Json.JString name);
                ("country", Json.JArray countries)].

Definition timedOut : error + Http.Response :=
  inl (NetError "context deadline exceeded (Client.Timeout exceeded while awaiting headers)").

Definition status (code : Z) (v : Json.value) : error + Http.Response :=
  inr {| Http.StatusCode := code; Http.Body := Json.Document v |}.

(** No service can be reached. *)
Definition offline : Http.Network :=
  fun _ _ => inl (NetError "dial tcp: lookup failed: no such host").

(** The network on which the three services answer the lookups of [name]
    as given. *)
Definition serving (name : string) (age gender nationality : error + Http.Response)
  : Http.Network :=
  Http.answering
    (Http.answering
       (Http.answering offline (ageURL name) age)
       (genderURL name) gender)
    (nationalityURL name) nationality.

(** A person as [CreatePerson] builds it, before enrichment. *)
Definition newcomer : Models.Person :=
  {| Models.ID := 0; Models.Name := "Dmitriy"; Models.Surname := "Ushakov";
     Models.Patronymic := Some "Vasilevich";
     Models.Age := None; Models.Gender := None; Models.Nationality := None |}.

(** The same person as stored after a first enrichment in which every
    lookup succeeded. *)
Definition stored : Models.Person :=
  {| Models.ID := 7; Models.Name := "Dmitriy"; Models.Surname := "Ushakov";
     Models.Patronymic := Some "Vasilevich";
     Models.Age := Some 42; Models.Gender := Some "male"; Models.Nationality := Some "RU" |}.

(** Age answers 42, gender times out, nationality answers RU. *)
Definition genderDown : Http.Network :=
  serving "Dmitriy"
    (ok (ageBody "Dmitriy" 42))
    timedOut
    (ok (nationalityBody "Dmitriy" [country "RU" 9])).

(** Age answers 34, gender answers 503, nationality answers US before GB. *)
Definition genderUnavailable : Http.Network :=
  serving "Dmitriy"
    (ok (ageBody "Dmitriy" 34))
    (status 503 (Json.JObject [("error", Json.JString "Service Unavailable")]))
    (ok (nationalityBody "Dmitriy" [country "US" 6; country "GB" 4])).

(** The three services answer with the zero value of their member. *)
Definition unknownName : Http.Network :=
  serving "Dmitriy"
    (ok (ageBody "Dmitriy" 0))
    (ok (genderBody "Dmitriy" ""))
    (ok (nationalityBody "Dmitriy" [])).

(** The three services answer [{}]. *)
Definition emptyObjects : Http.Network :=
  serving "Dmitriy" (ok (Json.JObject [])) (ok (Json.JObject [])) (ok (Json.JObject [])).

(** An update request for person 7 that repeats name and surname, over a
    database that holds [stored] under that id and accepts the save. *)
Definition database : Gorm.DB :=
  {| Gorm.First := fun id => if String.eqb id "7" then inr stored else inl ErrRecordNotFound;
     Gorm.SaveError := fun _ => None |}.

Definition updateRequest : Gin.Context :=
  {| Gin.Param := fun key => if String.eqb key "id" then "7" else "";
     Gin.ShouldBindJSON :=
       inr {| Models.InputName := "Dmitriy"; Models.InputSurname := "Ushakov";
              Models.InputPatronymic := None |} |}.

End Scenario.

(* ================================================================== *)
(** ** strconv: Atoi *)
(* ================================================================== *)

Module Strconv.

Inductive NumError := ErrSyntax | ErrRange.

Definition maxUint64 : Z := 2 ^ 64 - 1.

Definition digit (c : ascii) : option Z :=
  let n := Z.of_nat (nat_of_ascii c) in
  if (48 <=? n) && (n <=? 57) then Some (n - 48) else None.

(** What [ParseUint] finds reading the digits from the left: it stops at
    the first byte that is no digit, and at the first digit that takes
    the number past 64 bits, whichever comes first. *)
Inductive scan :=
| Number (un : Z)
| NotANumber
| TooLarge.

Fixpoint scanDigits (s : string) (n : Z) : scan :=
  match s with
  | EmptyString => Number n
  | String c rest =>
      match digit c with
      | None => NotANumber
      | Some d => if maxUint64 <? n * 10 + d then TooLarge else scanDigits rest (n * 10 + d)
      end
  end.

(** [strconv.Atoi] on a 64-bit [int]: one optional sign, then decimal
    digits.  With a syntax error the number returned is 0; with a range
    error it is the nearest [int]. *)
Definition Atoi (s : string) : Z * option NumError :=
  let '(neg, digits) := match s with
                        | String "-" rest => (true, rest)
                        | String "+" rest => (false, rest)
                        | _ => (false, s)
                        end in
  match digits with
  | EmptyString => (0, Some ErrSyntax)
  | _ =>
      match scanDigits digits 0 with
      | NotANumber => (0, Some ErrSyntax)
      | TooLarge => (if neg then Json.minInt else Json.maxInt, Some ErrRange)
      | Number un =>
          if neg then
            if 2 ^ 63 <? un then (Json.minInt, Some ErrRange) else (- un, None)
          else
            if 2 ^ 63 <=? un then (Json.maxInt, Some ErrRange) else (un, None)
      end
  end.

(** Arithmetic on [int] wraps around at 64 bits. *)
Definition wrap (z : Z) : Z := (z + 2 ^ 63) mod 2 ^ 64 - 2 ^ 63.

End Strconv.

(* ================================================================== *)
(** ** handlers: GetPeople, CreatePerson, GetPersonByID, DeletePerson *)
(* ================================================================== *)

Module Server.

Import Fmt.

(** *** The database beyond [First] and [Save] *)

Inductive sqlArg :=
| SqlText (s : string)
| SqlInt (z : Z).

(** The statement a chain of [Where], [Limit] and [Offset] builds on
    [db.DB]: the conditions in the order they were added. *)
Record Query := {
  Conditions : list (string * sqlArg);
  LimitTo : option Z;
  OffsetBy : option Z
}.

Definition allRows : Query := {| Conditions := []; LimitTo := None; OffsetBy := None |}.

Definition Where (q : Query) (sql : string) (arg : sqlArg) : Query :=
  {| Conditions := Conditions q ++ [(sql, arg)]; LimitTo := LimitTo q; OffsetBy := OffsetBy q |}.

Definition Limit (q : Query) (n : Z) : Query :=
  {| Conditions := Conditions q; LimitTo := Some n; OffsetBy := OffsetBy q |}.

Definition Offset (q : Query) (n : Z) : Query :=
  {| Conditions := Conditions q; LimitTo := LimitTo q; OffsetBy := Some n |}.

(** The database as these handlers see it: [Rows] answers [First];
    [FindAll] is what [Find] returns for a statement; [CreateResult] is the
    error of [Create], or the person as [Create] leaves it (its id
    assigned); [DeleteError] is the error of [Delete]. *)
Record DB := {
  Rows : Gorm.DB;
  FindAll : Query -> error + list Models.Person;
  CreateResult : Models.Person -> error + Models.Person;
  DeleteError : Models.Person -> option error
}.

(** *** Effects *)

Inductive action :=
| Core (e : event)                                   (* logger, lookups, [c.JSON] of one person or an error *)
| Listed (q : Query)                                 (* [Find] ran the statement *)
| Created (p : Models.Person)                        (* [db.DB.Create] was called on the person *)
| Deleted (p : Models.Person)                        (* [db.DB.Delete] was called on the person *)
| RepliedPeople (status : Z) (people : list Models.Person)   (* [c.JSON] of a list *)
| RepliedStatus (status : Z).                        (* [c.Status]: no body *)

Definition H (A : Type) : Type := A * list action.

Definition retH {A} (a : A) : H A := (a, []).

Definition bindH {A B} (m : H A) (k : A -> H B) : H B :=
  let '(a, t1) := m in
  let '(b, t2) := k a in
  (b, t1 ++ t2).

Definition act (a : action) : H unit := (tt, [a]).

(** A computation of the orchestrator or of the logger, run in a handler. *)
Definition lift {A} (m : M A) : H A := (fst m, map Core (snd m)).

Definition outcomeOf {A} (m : H A) : A := fst m.
Definition actions {A} (m : H A) : list action := snd m.

Declare Scope handler_scope.
Notation "x <- m ;; k" := (bindH m (fun x => k))
  (at level 61, m at next level, right associativity) : handler_scope.
Notation "m ;; k" := (bindH m (fun _ => k))
  (at level 61, right associativity) : handler_scope.
Local Open Scope handler_scope.

Definition Find (db : DB) (q : Query) : H (error + list Models.Person) :=
  act (Listed q) ;;
  retH (FindAll db q).

Definition Create (db : DB) (p : Models.Person) : H (error + Models.Person) :=
  act (Created p) ;;
  retH (CreateResult db p).

Definition Delete (db : DB) (p : Models.Person) : H (option error) :=
  act (Deleted p) ;;
  retH (DeleteError db p).

(** *** gin *)

(** The query string as [url.Values]: keys with their values, in the
    order of the URL. *)
Definition Values := list (string * string).

Fixpoint GetQuery (values : Values) (key : string) : option string :=
  match values with
  | [] => None
  | (k, v) :: rest => if String.eqb k key then Some v else GetQuery rest key
  end.

(** [c.Query]: the first value of the key, empty when the key is missing. *)
Definition QueryOf (values : Values) (key : string) : string :=
  match GetQuery values key with
  | Some v => v
  | None => ""
  end.

(** [c.DefaultQuery]: the default only when the key is missing. *)
Definition DefaultQuery (values : Values) (key defaultValue : string) : string :=
  match GetQuery values key with
  | Some v => v
  | None => defaultValue
  end.

Definition StatusCreated : Z := 201.
Definition StatusNoContent : Z := 204.

(** *** The handlers *)

Definition GetPeople (db : DB) (values : Values) : H unit :=
  lift (Config.Info "Handling GetPeople request") ;;
  let query := allRows in

  query <- (let name := QueryOf values "name" in
            if negb (String.eqb name "") then
              let query := Where query "name ILIKE ?" (SqlText ("%" ++ name ++ "%")) in
              lift (Config.Debugf "Filtering by name: %s" [AString name]) ;;
              retH query
            else retH query) ;;
  query <- (let surname := QueryOf values "surname" in
            if negb (String.eqb surname "") then
              let query := Where query "surname ILIKE ?" (SqlText ("%" ++ surname ++ "%")) in
              lift (Config.Debugf "Filtering by surname: %s" [AString surname]) ;;
              retH query
            else retH query) ;;
  query <- (let patronymic := QueryOf values "patronymic" in
            if negb (String.eqb patronymic "") then
              let query :=
                Where query "patronymic ILIKE ?" (SqlText ("%" ++ patronymic ++ "%")) in
              lift (Config.Debugf "Filtering by patronymic: %s" [AString patronymic]) ;;
              retH query
            else retH query) ;;
  query <- (let ageMinStr := QueryOf values "age_min" in
            if negb (String.eqb ageMinStr "") then
              match Strconv.Atoi ageMinStr with
              | (ageMin, None) =>
                  let query := Where query "age >= ?" (SqlInt ageMin) in
                  lift (Config.Debugf "Filtering by min age: %d" [AInt ageMin]) ;;
                  retH query
              | (_, Some _) => retH query
              end
            else retH query) ;;
  query <- (let ageMaxStr := QueryOf values "age_max" in
            if negb (String.eqb ageMaxStr "") then
              match Strconv.Atoi ageMaxStr with
              | (ageMax, None) =>
                  let query := Where query "age <= ?" (SqlInt ageMax) in
                  lift (Config.Debugf "Filtering by max age: %d" [AInt ageMax]) ;;
                  retH query
              | (_, Some _) => retH query
              end
            else retH query) ;;
  query <- (let gender := QueryOf values "gender" in
            if negb (String.eqb gender "") then
              let query := Where query "gender ILIKE ?" (SqlText ("%" ++ gender ++ "%")) in
              lift (Config.Debugf "Filtering by gender: %s" [AString gender]) ;;
              retH query
            else retH query) ;;
  query <- (let nationality := QueryOf values "nationality" in
            if negb (String.eqb nationality "") then
              let query :=
                Where query "nationality ILIKE ?" (SqlText ("%" ++ nationality ++ "%")) in
              lift (Config.Debugf "Filtering by nationality: %s" [AString nationality]) ;;
              retH query
            else retH query) ;;

  let page := fst (Strconv.Atoi (DefaultQuery values "page" "1")) in
  let limit := fst (Strconv.Atoi (DefaultQuery values "limit" "10")) in
  let offset := Strconv.wrap (Strconv.wrap (page - 1) * limit) in
  lift (Config.Debugf "Applying pagination: page=%d, limit=%d, offset=%d"
                      [AInt page; AInt limit; AInt offset]) ;;

  found <- Find db (Offset (Limit query limit) offset) ;;
  match found with
  | inl err =>
      lift (Config.Errorf "Error getting people: %v" [AError err]) ;;
      lift (Gin.JSON Handlers.StatusInternalServerError (ErrorBody "Failed to retrieve people"))
  | inr people =>
      act (RepliedPeople Http.StatusOK people) ;;
      lift (Config.Info "Successfully retrieved people")
  end.

Definition CreatePerson (net : Http.Network) (db : DB) (c : Gin.Context) : H unit :=
  lift (Config.Info "Handling CreatePerson request") ;;
  match Gin.ShouldBindJSON c with
  | inl err =>
      lift (Config.Warnf "Invalid input for CreatePerson: %v" [AError err]) ;;
      lift (Gin.JSON Handlers.StatusBadRequest (ErrorText err))
  | inr inputPerson =>
      let person :=
        {| Models.ID := 0;
           Models.Name := Models.InputName inputPerson;
           Models.Surname := Models.InputSurname inputPerson;
           Models.Patronymic := Models.InputPatronymic inputPerson;
           Models.Age := None; Models.Gender := None; Models.Nationality := None |} in
      enriched <- lift (Services.EnrichPerson net person) ;;
      let '(person, err) := enriched in
      match err with
      | Some err => lift (Config.Errorf "Error enriching person data: %v" [AError err])
      | None => retH tt
      end ;;
      created <- Create db person ;;
      match created with
      | inl err =>
          lift (Config.Errorf "Error creating person in DB: %v" [AError err]) ;;
          lift (Gin.JSON Handlers.StatusInternalServerError (ErrorBody "Failed to create person"))
      | inr person =>
          lift (Config.Infof "Successfully created person with ID: %d"
                             [AInt (Models.ID person)]) ;;
          lift (Gin.JSON StatusCreated (PersonBody person))
      end
  end.

Definition GetPersonByID (db : DB) (c : Gin.Context) : H unit :=
  lift (Config.Info "Handling GetPersonByID request") ;;
  let id := Gin.Param c "id" in
  match Gorm.First (Rows db) id with
  | inl ErrRecordNotFound =>
      lift (Config.Warnf "Person with ID %s not found" [AString id]) ;;
      lift (Gin.JSON Handlers.StatusNotFound (ErrorBody "Person not found"))
  | inl err =>
      lift (Config.Errorf "Error getting person by ID %s: %v" [AString id; AError err]) ;;
      lift (Gin.JSON Handlers.StatusInternalServerError (ErrorBody "Failed to retrieve person"))
  | inr person =>
      lift (Config.Infof "Successfully retrieved person with ID: %s" [AString id]) ;;
      lift (Gin.JSON Http.StatusOK (PersonBody person))
  end.

Definition DeletePerson (db : DB) (c : Gin.Context) : H unit :=
  lift (Config.Info "Handling DeletePerson request") ;;
  let id := Gin.Param c "id" in
  match Gorm.First (Rows db) id with
  | inl ErrRecordNotFound =>
      lift (Config.Warnf "Person with ID %s not found for deletion" [AString id]) ;;
      lift (Gin.JSON Handlers.StatusNotFound (ErrorBody "Person not found"))
  | inl err =>
      lift (Config.Errorf "Error finding person for deletion with ID %s: %v"
                          [AString id; AError err]) ;;
      lift (Gin.JSON Handlers.StatusInternalServerError
                     (ErrorBody "Failed to retrieve person for deletion"))
  | inr person =>
      failed <- Delete db person ;;
      match failed with
      | Some err =>
          lift (Config.Errorf "Error deleting person with ID %s from DB: %v"
                              [AString id; AError err]) ;;
          lift (Gin.JSON Handlers.StatusInternalServerError (ErrorBody "Failed to delete person"))
      | None =>
          lift (Config.Infof "Successfully deleted person with ID: %s" [AString id]) ;;
          act (RepliedStatus StatusNoContent)
      end
  end.

(** *** Reading a handler's actions *)

(** What the handler answered the client, in order. *)
Inductive response :=
| JSONResponse (status : Z) (body : payload)
| PeopleResponse (status : Z) (people : list Models.Person)
| StatusResponse (status : Z).

Fixpoint responses (t : list action) : list response :=
  match t with
  | [] => []
  | Core (Replied status body) :: t' => JSONResponse status body :: responses t'
  | RepliedPeople status people :: t' => PeopleResponse status people :: responses t'
  | RepliedStatus status :: t' => StatusResponse status :: responses t'
  | _ :: t' => responses t'
  end.

(** The calls that change the database, in order. *)
Inductive write :=
| WriteCreate (p : Models.Person)
| WriteSave (p : Models.Person)
| WriteDelete (p : Models.Person).

Fixpoint writes (t : list action) : list write :=
  match t with
  | [] => []
  | Created p :: t' => WriteCreate p :: writes t'
  | Core (Saved p) :: t' => WriteSave p :: writes t'
  | Deleted p :: t' => WriteDelete p :: writes t'
  | _ :: t' => writes t'
  end.

(** The statements [Find] ran, and the URLs the lookups requested. *)
Fixpoint statements (t : list action) : list Query :=
  match t with
  | [] => []
  | Listed q :: t' => q :: statements t'
  | _ :: t' => statements t'
  end.

Fixpoint lookups (t : list action) : list string :=
  match t with
  | [] => []
  | Core (Requested url) :: t' => url :: lookups t'
  | _ :: t' => lookups t'
  end.

(** The same for [UpdatePerson], whose actions are events. *)
Definition updateActions (net : Http.Network) (db : Gorm.DB) (c : Gin.Context) : list action :=
  map Core (trace (Handlers.UpdatePerson net db c)).

(** *** The statement [GetPeople] builds, filter by filter *)

Definition textFilter (values : Values) (key sql : string) : list (string * sqlArg) :=
  let v := QueryOf values key in
  if String.eqb v "" then [] else [(sql, SqlText ("%" ++ v ++ "%"))].

Definition ageFilter (values : Values) (key sql : string) : list (string * sqlArg) :=
  let v := QueryOf values key in
  if String.eqb v "" then []
  else match Strconv.Atoi v with
       | (n, None) => [(sql, SqlInt n)]
       | (_, Some _) => []
       end.

Definition filtersOf (values : Values) : list (string * sqlArg) :=
  textFilter values "name" "name ILIKE ?"
  ++ textFilter values "surname" "surname ILIKE ?"
  ++ textFilter values "patronymic" "patronymic ILIKE ?"
  ++ ageFilter values "age_min" "age >= ?"
  ++ ageFilter values "age_max" "age <= ?"
  ++ textFilter values "gender" "gender ILIKE ?"
  ++ textFilter values "nationality" "nationality ILIKE ?".

Definition pageOf (values : Values) : Z := fst (Strconv.Atoi (DefaultQuery values "page" "1")).
Definition limitOf (values : Values) : Z := fst (Strconv.Atoi (DefaultQuery values "limit" "10")).

End Server.

(* ================================================================== *)
(** ** The vocabulary of the further properties *)
(* ================================================================== *)

Module Reading.

Import Fmt Services Enrichment Server.


Definition isWarning (e : event) : bool :=
  match e with
  | Logged WarnLevel _ _ => true
  | _ => false
  end.

(** The number of lookups of a run that failed. *)
Definition failed (net : Http.Network) (name : string) (l : lookup) : nat :=
  match failure net name l with
  | Some _ => 1
  | None => 0
  end.

Definition failures (net : Http.Network) (name : string) : nat :=
  (failed net name AgeLookup + failed net name GenderLookup
   + failed net name NationalityLookup)%nat.

(** The person [UpdatePerson] hands to the orchestrator: the one found,
    with the fields the request carries. *)
Definition applyInput (found : Models.Person) (input : Models.PersonInput) : Models.Person :=
  {| Models.ID := Models.ID found;
     Models.Name := if String.eqb (Models.InputName input) ""
                    then Models.Name found else Models.InputName input;
     Models.Surname := if String.eqb (Models.InputSurname input) ""
                       then Models.Surname found else Models.InputSurname input;
     Models.Patronymic := match Models.InputPatronymic input with
                          | Some v => Some v
                          | None => Models.Patronymic found
                          end;
     Models.Age := Models.Age found;
     Models.Gender := Models.Gender found;
     Models.Nationality := Models.Nationality found |}.

(** The person [CreatePerson] hands to the orchestrator. *)
Definition fresh (input : Models.PersonInput) : Models.Person :=
  {| Models.ID := 0;
     Models.Name := Models.InputName input;
     Models.Surname := Models.InputSurname input;
     Models.Patronymic := Models.InputPatronymic input;
     Models.Age := None; Models.Gender := None; Models.Nationality := None |}.

(** A statement with further conditions at its end. *)
Definition addConditions (q : Query) (cs : list (string * sqlArg)) : Query :=
  {| Conditions := Conditions q ++ cs; LimitTo := LimitTo q; OffsetBy := OffsetBy q |}.

(** A trace of logger calls and nothing else. *)
Definition logsOnly (t : list event) : Prop :=
  forall e, In e t -> exists lvl format args, e = Logged lvl format args.

(** The statement [GetPeople] runs for a query string. *)
Definition statementOf (values : Values) : Query :=
  Offset (Limit (addConditions allRows (filtersOf values)) (limitOf values))
         (Strconv.wrap (Strconv.wrap (pageOf values - 1) * limitOf values)).

(** The filters of [GetPeople]: the key of the query string and the
    condition it adds. *)
Definition textFilters : list (string * string) :=
  [ ("name", "name ILIKE ?"); ("surname", "surname ILIKE ?");
    ("patronymic", "patronymic ILIKE ?"); ("gender", "gender ILIKE ?");
    ("nationality", "nationality ILIKE ?") ].

Definition ageFilters : list (string * string) :=
  [ ("age_min", "age >= ?"); ("age_max", "age <= ?") ].

(** A lookup's field is absent. *)
Definition absent (l : lookup) (p : Models.Person) : Prop :=
  match l with
  | AgeLookup => Models.Age p = None
  | GenderLookup => Models.Gender p = None
  | NationalityLookup => Models.Nationality p = None
  end.

(** The three URLs of a name. *)
Definition urlsOf (name : string) : list string :=
  [ageURL name; genderURL name; nationalityURL name].

(** The answer a handler gives for an error of [First]. *)
Definition notFoundOr (err : error) (otherwise : string) : response :=
  match err with
  | ErrRecordNotFound => JSONResponse Handlers.StatusNotFound (ErrorBody "Person not found")
  | _ => JSONResponse Handlers.StatusInternalServerError (ErrorBody otherwise)
  end.

(** Concrete requests and databases. *)
Definition emptyBase : Gorm.DB :=
  {| Gorm.First := fun _ => inl ErrRecordNotFound; Gorm.SaveError := fun _ => None |}.

(** A database that holds [Scenario.stored] under id 7, lists it for any
    statement, numbers new persons 8 and deletes without error. *)
Definition sampleDB : DB :=
  {| Rows := Scenario.database;
     FindAll := fun _ => inr [Scenario.stored];
     CreateResult := fun p =>
       inr {| Models.ID := 8; Models.Name := Models.Name p; Models.Surname := Models.Surname p;
              Models.Patronymic := Models.Patronymic p; Models.Age := Models.Age p;
              Models.Gender := Models.Gender p; Models.Nationality := Models.Nationality p |};
     DeleteError := fun _ => None |}.

Definition badJSON : Gin.Context :=
  {| Gin.Param := fun key => if String.eqb key "id" then "7" else "";
     Gin.ShouldBindJSON := inl (LibError "invalid character '}' looking for beginning of value") |}.

Definition missingPerson : Gin.Context :=
  {| Gin.Param := fun key => if String.eqb key "id" then "99" else "";
     Gin.ShouldBindJSON := Gin.ShouldBindJSON Scenario.updateRequest |}.

End Reading.

(* ================================================================== *)
(** ** Properties *)
(* ================================================================== *)

Import Fmt Services Enrichment.

(** *** Formatting of the URLs *)

Lemma append_empty (s : string) : (s ++ "")%string = s.
Proof.
  induction s as [|c s IH]; simpl.
  - reflexivity.
  - now rewrite IH.
Qed.

Lemma ageURL_eq (name : string) :
  ageURL name = ("https://api.agify.io/?name=" ++ name)%string.
Proof. unfold ageURL. cbn. now rewrite append_empty. Qed.

Lemma genderURL_eq (name : string) :
  genderURL name = ("https://api.genderize.io/?name=" ++ name)%string.
Proof. unfold genderURL. cbn. now rewrite append_empty. Qed.

Lemma nationalityURL_eq (name : string) :
  nationalityURL name = ("https://api.nationalize.io/?name=" ++ name)%string.
Proof. unfold nationalityURL. cbn. now rewrite append_empty. Qed.

(** The three URLs differ at their host, whatever the name. *)
Lemma lookupURL_apart (l l' : lookup) (name : string) :
  l <> l' -> String.eqb (lookupURL l name) (lookupURL l' name) = false.
Proof.
  intros Hne.
  destruct l, l'; try congruence; unfold lookupURL;
    rewrite ?ageURL_eq, ?genderURL_eq, ?nationalityURL_eq; reflexivity.
Qed.

(** *** fetchData *)

Lemma fetchData_result {T} `{Json.Unmarshaler T} (c : Http.Client) (url : string) (t : T) :
  result (fetchData c url t) = outcome url (Http.Transport c (Http.Timeout c) url) t.
Proof.
  unfold fetchData, outcome, Http.Get, result; cbn.
  destruct (Http.Transport c (Http.Timeout c) url) as [err|resp]; cbn.
  - reflexivity.
  - unfold Http.StatusOK.
    destruct (Http.StatusCode resp =? 200); cbn.
    + destruct (Json.Decode (Http.Body resp) t); reflexivity.
    + reflexivity.
Qed.

Lemma fetchData_trace {T} `{Json.Unmarshaler T} (c : Http.Client) (url : string) (t : T) :
  trace (fetchData c url t) = fetchTrace url (result (fetchData c url t)).
Proof.
  unfold fetchData, Http.Get, result, trace, fetchTrace; cbn.
  destruct (Http.Transport c (Http.Timeout c) url) as [err|resp]; cbn.
  - reflexivity.
  - unfold Http.StatusOK.
    destruct (Http.StatusCode resp =? 200); cbn.
    + destruct (Json.Decode (Http.Body resp) t); reflexivity.
    + reflexivity.
Qed.

(** *** EnrichPerson, step by step *)

#[local] Arguments fetchData : simpl never.
#[local] Arguments ageURL : simpl never.
#[local] Arguments genderURL : simpl never.
#[local] Arguments nationalityURL : simpl never.

Lemma mergeAge_name r p : Models.Name (mergeAge r p) = Models.Name p.
Proof. destruct r as [e|a]; cbn; [|destruct (Age a =? 0)]; reflexivity. Qed.

Lemma mergeGender_name r p : Models.Name (mergeGender r p) = Models.Name p.
Proof. destruct r as [e|g]; cbn; [|destruct (String.eqb (Gender g) "")]; reflexivity. Qed.

Lemma EnrichPerson_eq (net : Http.Network) (p : Models.Person) :
  let name := Models.Name p in
  let ra := lookupAge net name in
  let rg := lookupGender net name in
  let rn := lookupNationality net name in
  EnrichPerson net p =
  ((mergeNationality rn (mergeGender rg (mergeAge ra p)), None),
   [Logged DebugLevel "Начинаем обогащение данных для человека: %s" [AString name]]
     ++ (fetchTrace (ageURL name) ra ++ noteAge name ra)
     ++ (fetchTrace (genderURL name) rg ++ noteGender name rg)
     ++ (fetchTrace (nationalityURL name) rn ++ noteNationality name rn)
     ++ [Logged DebugLevel "Завершено обогащение данных для человека: %s" [AString name]]).
Proof.
  cbv zeta. unfold lookupAge, lookupGender, lookupNationality.
  rewrite <- !fetchData_trace.
  unfold EnrichPerson, result, trace.
  destruct (fetchData (newClient net) (ageURL (Models.Name p)) zeroAgify) as [[ea|a] ta];
    cbn; [|destruct (Age a =? 0); cbn];
    (destruct (fetchData (newClient net) (genderURL (Models.Name p)) zeroGenderize)
      as [[eg|g] tg];
     cbn; [|destruct (String.eqb (Gender g) ""); cbn]);
    (destruct (fetchData (newClient net) (nationalityURL (Models.Name p)) zeroNationalize)
      as [[en|n] tn];
     cbn; [|destruct (Country n) as [|first rest]; cbn]);
    rewrite <- ?app_assoc; cbn; rewrite <- ?app_assoc; reflexivity.
Qed.

Lemma enriched_eq (net : Http.Network) (p : Models.Person) :
  enriched net p =
  mergeNationality (lookupNationality net (Models.Name p))
    (mergeGender (lookupGender net (Models.Name p))
       (mergeAge (lookupAge net (Models.Name p)) p)).
Proof. unfold enriched. now rewrite EnrichPerson_eq. Qed.

Lemma log_eq (net : Http.Network) (p : Models.Person) :
  let name := Models.Name p in
  log net p =
  [Logged DebugLevel "Начинаем обогащение данных для человека: %s" [AString name]]
    ++ (fetchTrace (ageURL name) (lookupAge net name) ++ noteAge name (lookupAge net name))
    ++ (fetchTrace (genderURL name) (lookupGender net name)
          ++ noteGender name (lookupGender net name))
    ++ (fetchTrace (nationalityURL name) (lookupNationality net name)
          ++ noteNationality name (lookupNationality net name))
    ++ [Logged DebugLevel "Завершено обогащение данных для человека: %s" [AString name]].
Proof. unfold log. now rewrite EnrichPerson_eq. Qed.

(** Each lookup is decided by the network's answer to its own URL. *)
Lemma lookupAge_answer net name :
  lookupAge net name = outcome (ageURL name) (answer net name AgeLookup) zeroAgify.
Proof. unfold lookupAge. now rewrite fetchData_result. Qed.

Lemma lookupGender_answer net name :
  lookupGender net name = outcome (genderURL name) (answer net name GenderLookup) zeroGenderize.
Proof. unfold lookupGender. now rewrite fetchData_result. Qed.

Lemma lookupNationality_answer net name :
  lookupNationality net name =
  outcome (nationalityURL name) (answer net name NationalityLookup) zeroNationalize.
Proof. unfold lookupNationality. now rewrite fetchData_result. Qed.

Lemma answer_answering_same net name l r :
  answer (Http.answering net (lookupURL l name) r) name l = r.
Proof. unfold answer, Http.answering. now rewrite String.eqb_refl. Qed.

Lemma answer_answering_other net name l l' r :
  l <> l' -> answer (Http.answering net (lookupURL l name) r) name l' = answer net name l'.
Proof.
  intros Hne. unfold answer, Http.answering.
  rewrite (lookupURL_apart l' l) by congruence. reflexivity.
Qed.

(** *** Reading the trace *)

Lemma requests_app t1 t2 : requests (t1 ++ t2) = requests t1 ++ requests t2.
Proof.
  induction t1 as [|e t1 IH]; cbn.
  - reflexivity.
  - destruct e; cbn; now rewrite IH.
Qed.

Lemma requests_fetchTrace {T} url (r : error + T) : requests (fetchTrace url r) = [url].
Proof. destruct r; reflexivity. Qed.

Lemma requests_noteAge name r : requests (noteAge name r) = [].
Proof. destruct r as [e|a]; cbn; [|destruct (Age a =? 0)]; reflexivity. Qed.

Lemma requests_noteGender name r : requests (noteGender name r) = [].
Proof. destruct r as [e|g]; cbn; [|destruct (String.eqb (Gender g) "")]; reflexivity. Qed.

Lemma requests_noteNationality name r : requests (noteNationality name r) = [].
Proof. destruct r as [e|n]; cbn; [|destruct (Country n)]; reflexivity. Qed.

Lemma requests_log net p :
  requests (log net p) =
  [ageURL (Models.Name p); genderURL (Models.Name p); nationalityURL (Models.Name p)].
Proof.
  rewrite log_eq. cbv zeta.
  rewrite !requests_app, !requests_fetchTrace,
    requests_noteAge, requests_noteGender, requests_noteNationality.
  reflexivity.
Qed.

Lemma levelEqb_eq a b : levelEqb a b = true <-> a = b.
Proof. destruct a, b; cbn; split; congruence. Qed.

Lemma loggedb_spec lvl format t : logged lvl format t <-> loggedb lvl format t = true.
Proof.
  unfold logged, loggedb. rewrite existsb_exists. split.
  - intros [args Hin]. exists (Logged lvl format args). split; [exact Hin|].
    apply andb_true_intro. split; [now apply levelEqb_eq | apply String.eqb_refl].
  - intros [e [Hin He]]. destruct e as [lvl' format' args| | |]; try discriminate.
    apply andb_prop in He. destruct He as [Hl Hf].
    apply levelEqb_eq in Hl. apply String.eqb_eq in Hf. subst.
    now exists args.
Qed.

Lemma loggedb_app lvl format t1 t2 :
  loggedb lvl format (t1 ++ t2) = loggedb lvl format t1 || loggedb lvl format t2.
Proof. unfold loggedb. apply existsb_app. Qed.

Lemma not_logged lvl format t : ~ logged lvl format t <-> loggedb lvl format t = false.
Proof.
  rewrite loggedb_spec. destruct (loggedb lvl format t); split; congruence.
Qed.

Lemma fetchTrace_no_warning {T} format url (r : error + T) :
  loggedb WarnLevel format (fetchTrace url r) = false.
Proof. destruct r; reflexivity. Qed.

Lemma fetchTrace_no_note {T} l url (r : error + T) :
  loggedb DebugLevel (noteOf l) (fetchTrace url r) = false.
Proof. destruct l, r; reflexivity. Qed.

Lemma noteAge_warning l name r :
  loggedb WarnLevel (warningOf l) (noteAge name r) =
  match l, r with AgeLookup, inl _ => true | _, _ => false end.
Proof. destruct l, r as [e|a]; cbn; try destruct (Age a =? 0); reflexivity. Qed.

Lemma noteGender_warning l name r :
  loggedb WarnLevel (warningOf l) (noteGender name r) =
  match l, r with GenderLookup, inl _ => true | _, _ => false end.
Proof. destruct l, r as [e|g]; cbn; try destruct (String.eqb (Gender g) ""); reflexivity. Qed.

Lemma noteNationality_warning l name r :
  loggedb WarnLevel (warningOf l) (noteNationality name r) =
  match l, r with NationalityLookup, inl _ => true | _, _ => false end.
Proof. destruct l, r as [e|n]; cbn; try destruct (Country n); reflexivity. Qed.

(** A lookup's warning is in the log exactly when the lookup failed. *)
Lemma warned_iff_failed net p l :
  loggedb WarnLevel (warningOf l) (log net p) =
  match failure net (Models.Name p) l with Some _ => true | None => false end.
Proof.
  rewrite log_eq. cbv zeta.
  rewrite !loggedb_app, !fetchTrace_no_warning,
    noteAge_warning, noteGender_warning, noteNationality_warning.
  unfold failure.
  destruct l; cbn;
    destruct (lookupAge net (Models.Name p)),
             (lookupGender net (Models.Name p)),
             (lookupNationality net (Models.Name p)); reflexivity.
Qed.

Lemma noteAge_note l name r :
  loggedb DebugLevel (noteOf l) (noteAge name r) =
  match l, r with AgeLookup, inr a => negb (Age a =? 0) | _, _ => false end.
Proof. destruct l, r as [e|a]; cbn; try destruct (Age a =? 0); reflexivity. Qed.

Lemma noteGender_note l name r :
  loggedb DebugLevel (noteOf l) (noteGender name r) =
  match l, r with GenderLookup, inr g => negb (String.eqb (Gender g) "") | _, _ => false end.
Proof. destruct l, r as [e|g]; cbn; try destruct (String.eqb (Gender g) ""); reflexivity. Qed.

Lemma noteNationality_note l name r :
  loggedb DebugLevel (noteOf l) (noteNationality name r) =
  match l, r with
  | NationalityLookup, inr n => match Country n with [] => false | _ :: _ => true end
  | _, _ => false
  end.
Proof. destruct l, r as [e|n]; cbn; try destruct (Country n); reflexivity. Qed.

(** A lookup's success note is in the log exactly when the lookup wrote
    its field. *)
Lemma noted_iff_written net p l :
  loggedb DebugLevel (noteOf l) (log net p) =
  match l with
  | AgeLookup =>
      match lookupAge net (Models.Name p) with
      | inr a => negb (Age a =? 0)
      | inl _ => false
      end
  | GenderLookup =>
      match lookupGender net (Models.Name p) with
      | inr g => negb (String.eqb (Gender g) "")
      | inl _ => false
      end
  | NationalityLookup =>
      match lookupNationality net (Models.Name p) with
      | inr n => match Country n with [] => false | _ :: _ => true end
      | inl _ => false
      end
  end.
Proof.
  rewrite log_eq. cbv zeta.
  rewrite !loggedb_app, !fetchTrace_no_note, noteAge_note, noteGender_note, noteNationality_note.
  destruct l; cbn;
    destruct (lookupAge net (Models.Name p)),
             (lookupGender net (Models.Name p)),
             (lookupNationality net (Models.Name p));
    rewrite ?orb_false_r; reflexivity.
Qed.

(** *** Reading the person *)

(** Each field is decided by its own lookup and its value before the call. *)
Ltac by_cases_on_lookups net p :=
  rewrite enriched_eq;
  destruct (lookupAge net (Models.Name p)) as [?|a];
  destruct (lookupGender net (Models.Name p)) as [?|g];
  destruct (lookupNationality net (Models.Name p)) as [?|n]; cbn;
  try destruct (Age a =? 0); try destruct (String.eqb (Gender g) "");
  try destruct (Country n); reflexivity.

Lemma age_enriched net p :
  Models.Age (enriched net p) = Models.Age (mergeAge (lookupAge net (Models.Name p)) p).
Proof. by_cases_on_lookups net p. Qed.

Lemma gender_enriched net p :
  Models.Gender (enriched net p)
  = Models.Gender (mergeGender (lookupGender net (Models.Name p)) p).
Proof. by_cases_on_lookups net p. Qed.

Lemma nationality_enriched net p :
  Models.Nationality (enriched net p)
  = Models.Nationality (mergeNationality (lookupNationality net (Models.Name p)) p).
Proof. by_cases_on_lookups net p. Qed.

Lemma field_enriched net p l :
  sameField l (enriched net p)
    match l with
    | AgeLookup => mergeAge (lookupAge net (Models.Name p)) p
    | GenderLookup => mergeGender (lookupGender net (Models.Name p)) p
    | NationalityLookup => mergeNationality (lookupNationality net (Models.Name p)) p
    end.
Proof.
  destruct l; unfold sameField;
    [apply age_enriched | apply gender_enriched | apply nationality_enriched].
Qed.

(** A lookup that fails leaves its field alone. *)
Lemma field_after_failure net p l :
  failure net (Models.Name p) l <> None -> sameField l (enriched net p) p.
Proof.
  intros Hfail. pose proof (field_enriched net p l) as Hfield.
  unfold failure in Hfail. destruct l; unfold sameField in *; rewrite Hfield.
  - destruct (lookupAge net (Models.Name p)); [reflexivity | congruence].
  - destruct (lookupGender net (Models.Name p)); [reflexivity | congruence].
  - destruct (lookupNationality net (Models.Name p)); [reflexivity | congruence].
Qed.

(** The other fields are never written. *)
Lemma frame_enriched net p :
  Models.ID (enriched net p) = Models.ID p /\
  Models.Name (enriched net p) = Models.Name p /\
  Models.Surname (enriched net p) = Models.Surname p /\
  Models.Patronymic (enriched net p) = Models.Patronymic p.
Proof. repeat split; by_cases_on_lookups net p. Qed.

(** The lookups of two networks that answer alike give the same run. *)
Lemma EnrichPerson_ext net net' p :
  lookupAge net (Models.Name p) = lookupAge net' (Models.Name p) ->
  lookupGender net (Models.Name p) = lookupGender net' (Models.Name p) ->
  lookupNationality net (Models.Name p) = lookupNationality net' (Models.Name p) ->
  EnrichPerson net p = EnrichPerson net' p.
Proof.
  intros Ha Hg Hn. rewrite !EnrichPerson_eq. cbv zeta. now rewrite Ha, Hg, Hn.
Qed.

(** *** The decoder on objects that lack the member *)

Lemma equalFold_refl s : Json.equalFold s s = true.
Proof. unfold Json.equalFold. apply String.eqb_refl. Qed.

Lemma findField_single {T} name (st : Json.value -> T -> Json.result T) key :
  Json.equalFold name key = false -> Json.findField [Json.Field name st] key = None.
Proof.
  intros Hfold. unfold Json.findField. cbn [find Json.name].
  destruct (String.eqb name key) eqn:Heq.
  - apply String.eqb_eq in Heq. subst key. now rewrite equalFold_refl in Hfold.
  - now rewrite Hfold.
Qed.

Lemma object_unselected {T} (fields : list (Json.field T)) members (t : T) :
  (forall key v, In (key, v) members -> Json.findField fields key = None) ->
  Json.object fields members t = Json.Ok t.
Proof.
  induction members as [|[key v] rest IH]; intros Hnone; cbn.
  - reflexivity.
  - rewrite (Hnone key v) by now left.
    apply IH. intros key' v' Hin. apply (Hnone key' v'). now right.
Qed.

Lemma outcome_lacking_age url members :
  lacks AgeLookup members ->
  outcome url (ok (Json.JObject members)) zeroAgify = inr zeroAgify.
Proof.
  intros Hl. unfold outcome, ok. cbn.
  unfold Json.unmarshal, unmarshalAgify, Json.unmarshalStruct.
  rewrite object_unselected; [reflexivity|].
  intros key v Hin. apply findField_single. exact (Hl key v Hin).
Qed.

Lemma outcome_lacking_gender url members :
  lacks GenderLookup members ->
  outcome url (ok (Json.JObject members)) zeroGenderize = inr zeroGenderize.
Proof.
  intros Hl. unfold outcome, ok. cbn.
  unfold Json.unmarshal, unmarshalGenderize, Json.unmarshalStruct.
  rewrite object_unselected; [reflexivity|].
  intros key v Hin. apply findField_single. exact (Hl key v Hin).
Qed.

Lemma outcome_lacking_country url members :
  lacks NationalityLookup members ->
  outcome url (ok (Json.JObject members)) zeroNationalize = inr zeroNationalize.
Proof.
  intros Hl. unfold outcome, ok. cbn.
  unfold Json.unmarshal, unmarshalNationalize, Json.unmarshalStruct.
  rewrite object_unselected; [reflexivity|].
  intros key v Hin. apply findField_single. exact (Hl key v Hin).
Qed.

(** *** The model at work *)

Example decode_age :
  Json.Decode (Json.Document (Scenario.ageBody "Dmitriy" 42)) zeroAgify
  = Json.Ok {| Age := 42 |}.
Proof. reflexivity. Qed.

Example decode_matches_names_case_insensitively :
  Json.Decode (Json.Document (Json.JObject [("AGE", Scenario.int 7)])) zeroAgify
  = Json.Ok {| Age := 7 |}.
Proof. reflexivity. Qed.

Example decode_keeps_last_member :
  Json.Decode (Json.Document (Json.JObject [("age", Scenario.int 7); ("age", Scenario.int 9);
                                            ("age", Json.JNull)])) zeroAgify
  = Json.Ok {| Age := 9 |}.
Proof. reflexivity. Qed.

Example decode_fraction_into_int_fails :
  Json.Decode (Json.Document (Json.JObject [("age", Json.JNumber (Json.Decimal 345 (-1)))]))
              zeroAgify
  = Json.Fail (Json.UnmarshalTypeError Json.KNumber "int").
Proof. reflexivity. Qed.

Example decode_array_into_struct_fails :
  Json.Decode (Json.Document (Json.JArray [])) zeroAgify
  = Json.Fail (Json.UnmarshalTypeError Json.KArray "services.AgifyResponse").
Proof. reflexivity. Qed.

Example decode_countries :
  Json.Decode (Json.Document (Scenario.nationalityBody "Dmitriy"
                                [Scenario.country "US" 6; Scenario.country "GB" 4]))
              zeroNationalize
  = Json.Ok {| Country :=
                 [ {| CountryID := "US";
                      Probability := Json.Float64Of (Json.Decimal 6 (-1)) |};
                   {| CountryID := "GB";
                      Probability := Json.Float64Of (Json.Decimal 4 (-1)) |} ] |}.
Proof. reflexivity. Qed.

(** Age answers 42, gender times out, nationality answers RU: the person
    gets the age and the nationality, and one warning is logged. *)
Example enrich_with_gender_timed_out :
  result (EnrichPerson Scenario.genderDown Scenario.newcomer)
  = ({| Models.ID := 0; Models.Name := "Dmitriy"; Models.Surname := "Ushakov";
        Models.Patronymic := Some "Vasilevich";
        Models.Age := Some 42; Models.Gender := None; Models.Nationality := Some "RU" |},
     None)
  /\ filter (fun e => match e with Logged WarnLevel _ _ => true | _ => false end)
            (log Scenario.genderDown Scenario.newcomer)
     = [Logged WarnLevel "Не удалось обогатить пол для %s: %v"
          [AString "Dmitriy";
           AError (Errorf "ошибка при выполнении HTTP-запроса к %s: %w"
                     [AString "https://api.genderize.io/?name=Dmitriy";
                      AError (NetError "context deadline exceeded (Client.Timeout exceeded while awaiting headers)")])]].
Proof. split; reflexivity. Qed.

(** A body that is not JSON is a failed lookup like any other. *)
Example enrich_with_body_not_json :
  failure (Http.answering Scenario.genderDown (ageURL "Dmitriy")
             (inr {| Http.StatusCode := 200; Http.Body := Json.Invalid |}))
          "Dmitriy" AgeLookup
  = Some (Errorf "ошибка при парсинге JSON-ответа от %s: %w"
            [AString "https://api.agify.io/?name=Dmitriy";
             AError (JsonError Json.InvalidInput)]).
Proof. reflexivity. Qed.

(* ------------------------------------------------------------------ *)
(** ** The claims *)
(* ------------------------------------------------------------------ *)

(** C1. Whatever the person and whatever the network answers to each of
    the three lookups (a response that decodes, a transport error, a status
    other than 200, a body that does not decode, a body of zero values),
    [EnrichPerson] completes, and the error it returns is nil. *)
Theorem EnrichPerson_returns_nil (net : Http.Network) (p : Models.Person) :
  EnrichPerson net p = ((enriched net p, None), log net p) /\ returned net p = None.
Proof.
  unfold enriched, returned, log, result, trace.
  rewrite EnrichPerson_eq. cbv zeta. split; reflexivity.
Qed.

(** C2, as the spec states it, is refuted: a person stored with age 42,
    gender male and nationality RU keeps each of the three after a run in
    which the lookup of that field fails.  None of the three universal
    statements "a set field whose lookup fails ends absent" holds. *)
Lemma failed_lookup_does_not_clear_field :
  ~ (forall net p v, Models.Age p = Some v ->
       failure net (Models.Name p) AgeLookup <> None ->
       Models.Age (enriched net p) = None) /\
  ~ (forall net p v, Models.Gender p = Some v ->
       failure net (Models.Name p) GenderLookup <> None ->
       Models.Gender (enriched net p) = None) /\
  ~ (forall net p v, Models.Nationality p = Some v ->
       failure net (Models.Name p) NationalityLookup <> None ->
       Models.Nationality (enriched net p) = None).
Proof.
  split; [|split]; intros Hclaim.
  - specialize (Hclaim Scenario.offline Scenario.stored 42 eq_refl).
    vm_compute in Hclaim. specialize (Hclaim ltac:(discriminate)). discriminate.
  - specialize (Hclaim Scenario.genderDown Scenario.stored "male" eq_refl).
    vm_compute in Hclaim. specialize (Hclaim ltac:(discriminate)). discriminate.
  - specialize (Hclaim Scenario.offline Scenario.stored "RU" eq_refl).
    vm_compute in Hclaim. specialize (Hclaim ltac:(discriminate)). discriminate.
Qed.

(** C2, amended. When the lookup of a field fails, [EnrichPerson] leaves
    that field as it was before the call: a value set by an earlier
    enrichment is kept, not replaced by absent.  This holds for age, for
    gender and for nationality. *)
Theorem failed_lookup_keeps_field (net : Http.Network) (p : Models.Person) (l : lookup) :
  failure net (Models.Name p) l <> None ->
  sameField l (enriched net p) p.
Proof.
  intros Hfail. unfold failure in Hfail.
  destruct l; unfold sameField.
  - rewrite age_enriched.
    destruct (lookupAge net (Models.Name p)); [reflexivity | congruence].
  - rewrite gender_enriched.
    destruct (lookupGender net (Models.Name p)); [reflexivity | congruence].
  - rewrite nationality_enriched.
    destruct (lookupNationality net (Models.Name p)); [reflexivity | congruence].
Qed.

Lemma failed_lookup_keeps_field_witness :
  Models.Gender (enriched Scenario.genderDown Scenario.stored) = Some "male".
Proof.
  apply (failed_lookup_keeps_field Scenario.genderDown Scenario.stored GenderLookup).
  vm_compute. discriminate.
Defined.

Lemma saved_app t1 t2 : Handlers.saved (t1 ++ t2) = Handlers.saved t1 ++ Handlers.saved t2.
Proof.
  induction t1 as [|e t1 IH]; cbn.
  - reflexivity.
  - destruct e; cbn; now rewrite IH.
Qed.

Lemma saved_log net p : Handlers.saved (log net p) = [].
Proof.
  rewrite log_eq. cbv zeta. rewrite !saved_app.
  destruct (lookupAge net (Models.Name p)) as [ea|a];
    destruct (lookupGender net (Models.Name p)) as [eg|g];
    destruct (lookupNationality net (Models.Name p)) as [en|n]; cbn;
    try destruct (Age a =? 0); try destruct (String.eqb (Gender g) "");
    try destruct (Country n); reflexivity.
Qed.

(** The handler saves what the orchestrator left: the person found, with
    the fields of the request applied, enriched. *)
Lemma UpdatePerson_saves_enriched net db c found input :
  Gorm.First db (Gin.Param c "id") = inr found ->
  Gin.ShouldBindJSON c = inr input ->
  exists edited,
    Models.Age edited = Models.Age found /\
    Models.Gender edited = Models.Gender found /\
    Models.Nationality edited = Models.Nationality found /\
    Handlers.saved (trace (Handlers.UpdatePerson net db c)) = [enriched net edited].
Proof.
  intros Hfound Hinput. unfold Handlers.UpdatePerson.
  rewrite Hfound, Hinput.
  set (e1 := if negb (String.eqb (Models.InputName input) "")
             then Models.setName found (Models.InputName input) else found).
  set (e2 := if negb (String.eqb (Models.InputSurname input) "")
             then Models.setSurname e1 (Models.InputSurname input) else e1).
  set (e3 := match Models.InputPatronymic input with
             | Some _ => Models.setPatronymic e2 (Models.InputPatronymic input)
             | None => e2
             end).
  exists e3.
  assert (Hfields : Models.Age e3 = Models.Age found /\
                    Models.Gender e3 = Models.Gender found /\
                    Models.Nationality e3 = Models.Nationality found).
  { subst e1 e2 e3.
    destruct (Models.InputPatronymic input), (String.eqb (Models.InputName input) ""),
      (String.eqb (Models.InputSurname input) ""); cbn; auto. }
  destruct Hfields as [Ha [Hg Hn]]. repeat split; try assumption.
  assert (Hrun : EnrichPerson net e3 = ((enriched net e3, None), log net e3)).
  { unfold enriched, log, result, trace. now rewrite EnrichPerson_eq. }
  rewrite Hrun. unfold Gorm.Save.
  cbn [bind Config.Info Config.Debugf emit ret fst snd trace].
  destruct (Gorm.SaveError db (enriched net e3));
    cbn [bind Config.Errorf Config.Infof Gin.JSON emit ret fst snd trace Handlers.saved app];
    rewrite !saved_app, saved_log; reflexivity.
Qed.

(** Re-enrichment through the handler: the stored gender is saved again
    when the gender lookup times out. *)
Example UpdatePerson_keeps_stored_gender :
  map Models.Gender
      (Handlers.saved
         (trace (Handlers.UpdatePerson Scenario.genderDown Scenario.database
                                       Scenario.updateRequest)))
  = [Some "male"].
Proof. vm_compute. reflexivity. Qed.

(** C3. When a lookup returns nil (status 200 and a body that decodes),
    its field is written exactly when the decoded value passes the test of
    the code: age is set to the integer returned when that integer is not
    zero, gender to the string returned when it is not empty, nationality
    when the country array is not empty.  The success note of the lookup
    is logged exactly in that case.  When the test fails the field keeps
    the value it had, and in neither case is the lookup's warning logged. *)
Theorem decoded_lookup_sets_field_iff_nonzero (net : Http.Network) (p : Models.Person) :
  let q := enriched net p in
  let t := log net p in
  (forall r, lookupAge net (Models.Name p) = inr r ->
     (Age r <> 0 -> Models.Age q = Some (Age r)) /\
     (Age r = 0 -> Models.Age q = Models.Age p) /\
     (logged DebugLevel (noteOf AgeLookup) t <-> Age r <> 0) /\
     ~ logged WarnLevel (warningOf AgeLookup) t) /\
  (forall r, lookupGender net (Models.Name p) = inr r ->
     (Gender r <> "" -> Models.Gender q = Some (Gender r)) /\
     (Gender r = "" -> Models.Gender q = Models.Gender p) /\
     (logged DebugLevel (noteOf GenderLookup) t <-> Gender r <> "") /\
     ~ logged WarnLevel (warningOf GenderLookup) t) /\
  (forall r, lookupNationality net (Models.Name p) = inr r ->
     (Country r <> [] -> Models.Nationality q = option_map CountryID (hd_error (Country r))) /\
     (Country r = [] -> Models.Nationality q = Models.Nationality p) /\
     (logged DebugLevel (noteOf NationalityLookup) t <-> Country r <> []) /\
     ~ logged WarnLevel (warningOf NationalityLookup) t).
Proof.
  cbv zeta. split; [|split]; intros r Hr.
  - pose proof (noted_iff_written net p AgeLookup) as Hnote.
    pose proof (warned_iff_failed net p AgeLookup) as Hwarn.
    unfold failure in Hwarn. rewrite Hr in Hnote, Hwarn.
    rewrite loggedb_spec, not_logged, Hnote, age_enriched, Hr. cbn [mergeAge].
    destruct (Z.eqb_spec (Age r) 0) as [Hz|Hz]; cbn [negb].
    + split; [congruence|]. split; [reflexivity|]. split; [|exact Hwarn].
      split; congruence.
    + split; [reflexivity|]. split; [congruence|]. split; [|exact Hwarn].
      split; [intros _; exact Hz | reflexivity].
  - pose proof (noted_iff_written net p GenderLookup) as Hnote.
    pose proof (warned_iff_failed net p GenderLookup) as Hwarn.
    unfold failure in Hwarn. rewrite Hr in Hnote, Hwarn.
    rewrite loggedb_spec, not_logged, Hnote, gender_enriched, Hr. cbn [mergeGender].
    destruct (String.eqb_spec (Gender r) "") as [Hz|Hz]; cbn [negb].
    + split; [congruence|]. split; [reflexivity|]. split; [|exact Hwarn].
      split; congruence.
    + split; [reflexivity|]. split; [congruence|]. split; [|exact Hwarn].
      split; [intros _; exact Hz | reflexivity].
  - pose proof (noted_iff_written net p NationalityLookup) as Hnote.
    pose proof (warned_iff_failed net p NationalityLookup) as Hwarn.
    unfold failure in Hwarn. rewrite Hr in Hnote, Hwarn.
    rewrite loggedb_spec, not_logged, Hnote, nationality_enriched, Hr. cbn [mergeNationality].
    destruct (Country r) as [|first rest].
    + split; [congruence|]. split; [reflexivity|]. split; [|exact Hwarn].
      split; congruence.
    + split; [reflexivity|]. split; [congruence|]. split; [|exact Hwarn].
      split; [intros _; discriminate | reflexivity].
Qed.

Lemma decoded_lookup_sets_field_iff_nonzero_witness :
  (Models.Age (enriched Scenario.genderUnavailable Scenario.newcomer) = Some 34 /\
   logged DebugLevel (noteOf AgeLookup) (log Scenario.genderUnavailable Scenario.newcomer)) /\
  (Models.Gender (enriched Scenario.unknownName Scenario.stored) = Some "male" /\
   ~ logged WarnLevel (warningOf GenderLookup) (log Scenario.unknownName Scenario.stored)) /\
  (Models.Nationality (enriched Scenario.unknownName Scenario.newcomer) = None /\
   ~ logged DebugLevel (noteOf NationalityLookup) (log Scenario.unknownName Scenario.newcomer)).
Proof.
  split; [|split].
  - destruct (decoded_lookup_sets_field_iff_nonzero Scenario.genderUnavailable Scenario.newcomer)
      as [Hage _].
    destruct (Hage {| Age := 34 |} eq_refl) as [Hset [_ [Hnote _]]].
    split; [apply Hset | apply Hnote]; discriminate.
  - destruct (decoded_lookup_sets_field_iff_nonzero Scenario.unknownName Scenario.stored)
      as [_ [Hgender _]].
    destruct (Hgender {| Gender := "" |} eq_refl) as [_ [Hkeep [_ Hwarn]]].
    split; [apply Hkeep; reflexivity | exact Hwarn].
  - destruct (decoded_lookup_sets_field_iff_nonzero Scenario.unknownName Scenario.newcomer)
      as [_ [_ Hnat]].
    destruct (Hnat {| Country := [] |} eq_refl) as [_ [Hkeep [Hnote _]]].
    split; [apply Hkeep; reflexivity | ].
    intros Hlogged. apply Hnote in Hlogged. now apply Hlogged.
Defined.

(** C4. When the nationality lookup returns a country array that is not
    empty, nationality is set to the country code of its first element,
    whatever the probabilities of the elements say. *)
Theorem nationality_is_first_country (net : Http.Network) (p : Models.Person)
        (r : NationalizeResponse) (first : NationalizeCountry)
        (rest : list NationalizeCountry) :
  lookupNationality net (Models.Name p) = inr r ->
  Country r = first :: rest ->
  Models.Nationality (enriched net p) = Some (CountryID first).
Proof.
  intros Hr Hc. rewrite nationality_enriched, Hr. cbn [mergeNationality].
  now rewrite Hc.
Qed.

Lemma nationality_is_first_country_witness :
  Models.Nationality (enriched Scenario.genderUnavailable Scenario.newcomer) = Some "US".
Proof.
  apply (nationality_is_first_country Scenario.genderUnavailable Scenario.newcomer
           {| Country := [ {| CountryID := "US";
                              Probability := Json.Float64Of (Json.Decimal 6 (-1)) |};
                           {| CountryID := "GB";
                              Probability := Json.Float64Of (Json.Decimal 4 (-1)) |} ] |}
           {| CountryID := "US"; Probability := Json.Float64Of (Json.Decimal 6 (-1)) |}
           [ {| CountryID := "GB"; Probability := Json.Float64Of (Json.Decimal 4 (-1)) |} ]).
  - vm_compute. reflexivity.
  - reflexivity.
Defined.

(** The first element wins also when a later one is more probable. *)
Example nationality_ignores_probability :
  Models.Nationality
    (enriched (Scenario.serving "Dmitriy" Scenario.timedOut Scenario.timedOut
                 (ok (Scenario.nationalityBody "Dmitriy"
                        [Scenario.country "GB" 4; Scenario.country "US" 6])))
              Scenario.newcomer)
  = Some "GB".
Proof. vm_compute. reflexivity. Qed.

(** Two runs in which one lookup fails, for whatever reason, and the other
    two lookups return the same: same person, same calls. *)
Lemma failures_alike net net' p l :
  failure net (Models.Name p) l <> None ->
  failure net' (Models.Name p) l <> None ->
  (forall l', l' <> l -> answer net (Models.Name p) l' = answer net' (Models.Name p) l') ->
  result (EnrichPerson net p) = result (EnrichPerson net' p) /\
  map heading (log net p) = map heading (log net' p).
Proof.
  intros Hf Hf' Hsame. unfold log, result, trace. rewrite !EnrichPerson_eq. cbv zeta.
  unfold failure in Hf, Hf'.
  destruct l.
  - rewrite (lookupGender_answer net), (lookupNationality_answer net),
      (Hsame GenderLookup), (Hsame NationalityLookup),
      <- (lookupGender_answer net'), <- (lookupNationality_answer net') by discriminate.
    destruct (lookupAge net (Models.Name p)); [|congruence].
    destruct (lookupAge net' (Models.Name p)); [|congruence].
    cbn [mergeAge fst snd noteAge]. split; [reflexivity|].
    rewrite !map_app. reflexivity.
  - rewrite (lookupAge_answer net), (lookupNationality_answer net),
      (Hsame AgeLookup), (Hsame NationalityLookup),
      <- (lookupAge_answer net'), <- (lookupNationality_answer net') by discriminate.
    destruct (lookupGender net (Models.Name p)); [|congruence].
    destruct (lookupGender net' (Models.Name p)); [|congruence].
    cbn [mergeGender fst snd noteGender]. split; [reflexivity|].
    rewrite !map_app. reflexivity.
  - rewrite (lookupAge_answer net), (lookupGender_answer net),
      (Hsame AgeLookup), (Hsame GenderLookup),
      <- (lookupAge_answer net'), <- (lookupGender_answer net') by discriminate.
    destruct (lookupNationality net (Models.Name p)); [|congruence].
    destruct (lookupNationality net' (Models.Name p)); [|congruence].
    cbn [mergeNationality fst snd noteNationality]. split; [reflexivity|].
    rewrite !map_app. reflexivity.
Qed.

Lemma failure_of_answer net name l :
  (exists err, answer net name l = inl err) \/
  (exists code body, code <> 200 /\
     answer net name l = inr {| Http.StatusCode := code; Http.Body := body |}) ->
  failure net name l <> None.
Proof.
  intros Hanswer. unfold failure.
  destruct l;
    [rewrite lookupAge_answer | rewrite lookupGender_answer | rewrite lookupNationality_answer];
    (destruct Hanswer as [[err ->] | [code [body [Hcode ->]]]];
     [discriminate
     | unfold outcome; cbn [Http.StatusCode];
       destruct (Z.eqb_spec code 200); [contradiction | discriminate]]).
Qed.

(** C5. For each of the three lookups and every status code other than
    200, the run in which the service answers with that status is the run
    in which the request fails in transport: the person returned is the
    same and the same calls are logged in the same order (only the error
    printed in the warning differs).  In it the lookup's warning is
    logged, the lookup's field keeps the value it had before the call, and
    all three requests are still sent. *)
Theorem bad_status_is_transport_failure
        (l : lookup) (net : Http.Network) (p : Models.Person)
        (code : Z) (body : Json.input) (err : error) :
  code <> 200 ->
  let url := lookupURL l (Models.Name p) in
  let refused :=
    Http.answering net url (inr {| Http.StatusCode := code; Http.Body := body |}) in
  let down := Http.answering net url (inl err) in
  result (EnrichPerson refused p) = result (EnrichPerson down p) /\
  map heading (log refused p) = map heading (log down p) /\
  logged WarnLevel (warningOf l) (log refused p) /\
  sameField l (enriched refused p) p /\
  requests (log refused p) =
    [ageURL (Models.Name p); genderURL (Models.Name p); nationalityURL (Models.Name p)].
Proof.
  intros Hcode. cbv zeta.
  set (name := Models.Name p).
  set (refused := Http.answering net (lookupURL l name) _).
  set (down := Http.answering net (lookupURL l name) (inl err)).
  assert (Hrefused : failure refused name l <> None).
  { apply failure_of_answer. right. exists code, body. split; [exact Hcode|].
    apply answer_answering_same. }
  assert (Hdown : failure down name l <> None).
  { apply failure_of_answer. left. exists err. apply answer_answering_same. }
  assert (Hsame : forall l', l' <> l -> answer refused name l' = answer down name l').
  { intros l' Hne. unfold refused, down.
    rewrite !answer_answering_other by congruence. reflexivity. }
  destruct (failures_alike refused down p l Hrefused Hdown Hsame) as [Hres Hlog].
  split; [exact Hres|]. split; [exact Hlog|]. split; [|split].
  - apply loggedb_spec. rewrite warned_iff_failed. fold name.
    destruct (failure refused name l); congruence.
  - now apply field_after_failure.
  - apply requests_log.
Qed.

Lemma bad_status_is_transport_failure_witness :
  let refused :=
    Http.answering Scenario.genderDown (genderURL "Dmitriy")
      (Scenario.status 503 (Json.JObject [("error", Json.JString "Service Unavailable")])) in
  let down := Http.answering Scenario.genderDown (genderURL "Dmitriy") Scenario.timedOut in
  result (EnrichPerson refused Scenario.stored) = result (EnrichPerson down Scenario.stored) /\
  map heading (log refused Scenario.stored) = map heading (log down Scenario.stored) /\
  logged WarnLevel (warningOf GenderLookup) (log refused Scenario.stored) /\
  Models.Gender (enriched refused Scenario.stored) = Some "male" /\
  requests (log refused Scenario.stored) =
    [ageURL "Dmitriy"; genderURL "Dmitriy"; nationalityURL "Dmitriy"].
Proof.
  apply (bad_status_is_transport_failure GenderLookup Scenario.genderDown Scenario.stored 503).
  discriminate.
Defined.

Lemma step_requests net name l : requests (step net name l) = [lookupURL l name].
Proof.
  destruct l; unfold step; rewrite requests_app, requests_fetchTrace;
    [rewrite requests_noteAge | rewrite requests_noteGender | rewrite requests_noteNationality];
    reflexivity.
Qed.

(** The warning and the note of a lookup appear in no other lookup's part. *)
Lemma step_owns_its_messages net name l l' :
  l <> l' ->
  loggedb WarnLevel (warningOf l) (step net name l') = false /\
  loggedb DebugLevel (noteOf l) (step net name l') = false.
Proof.
  intros Hne.
  destruct l'; unfold step; rewrite !loggedb_app, fetchTrace_no_warning, fetchTrace_no_note;
    [rewrite noteAge_warning, noteAge_note
    | rewrite noteGender_warning, noteGender_note
    | rewrite noteNationality_warning, noteNationality_note];
    destruct l; try congruence; split; reflexivity.
Qed.

Lemma step_ext net net' name l :
  answer net' name l = answer net name l -> step net' name l = step net name l.
Proof.
  intros Hsame. destruct l; unfold step;
    rewrite ?lookupAge_answer, ?lookupGender_answer, ?lookupNationality_answer, Hsame;
    reflexivity.
Qed.

(** C6. In every run the three lookups are requested once each, in the
    order age, gender, nationality.  The log is the part of the age
    lookup, then the part of the gender lookup, then the part of the
    nationality lookup, between the opening and the closing line; each part
    holds the one request of its lookup, and no warning or note of another
    lookup.  What a lookup logs and the value its field ends with depend on
    the network's answer to that lookup only: on a network that answers
    the other two lookups differently (or not at all) they are the same. *)
Theorem lookups_run_once_in_order (net : Http.Network) (p : Models.Person) :
  let name := Models.Name p in
  requests (log net p) = [ageURL name; genderURL name; nationalityURL name] /\
  log net p =
    [Logged DebugLevel "Начинаем обогащение данных для человека: %s" [AString name]]
      ++ step net name AgeLookup
      ++ step net name GenderLookup
      ++ step net name NationalityLookup
      ++ [Logged DebugLevel "Завершено обогащение данных для человека: %s" [AString name]] /\
  (forall l, requests (step net name l) = [lookupURL l name]) /\
  (forall l l', l <> l' ->
     ~ logged WarnLevel (warningOf l) (step net name l') /\
     ~ logged DebugLevel (noteOf l) (step net name l')) /\
  (forall net' l,
     answer net' name l = answer net name l ->
     sameField l (enriched net' p) (enriched net p) /\
     step net' name l = step net name l).
Proof.
  cbv zeta. split; [apply requests_log|]. split; [apply log_eq|].
  split; [intros l; apply step_requests|]. split.
  - intros l l' Hne. rewrite !not_logged. now apply step_owns_its_messages.
  - intros net' l Hsame. split; [|now apply step_ext].
    destruct l; unfold sameField;
      rewrite ?age_enriched, ?gender_enriched, ?nationality_enriched,
        ?lookupAge_answer, ?lookupGender_answer, ?lookupNationality_answer, Hsame;
      reflexivity.
Qed.

Lemma lookups_run_once_in_order_witness :
  let answered :=
    Http.answering Scenario.genderDown (genderURL "Dmitriy")
      (ok (Scenario.genderBody "Dmitriy" "male")) in
  Models.Age (enriched answered Scenario.newcomer)
  = Models.Age (enriched Scenario.genderDown Scenario.newcomer) /\
  step answered "Dmitriy" AgeLookup = step Scenario.genderDown "Dmitriy" AgeLookup.
Proof.
  destruct (lookups_run_once_in_order Scenario.genderDown Scenario.newcomer)
    as [_ [_ [_ [_ Hindependent]]]].
  apply (Hindependent _ AgeLookup). reflexivity.
Defined.

(** C7. When the three lookups succeed with age 0, an empty gender and an
    empty country array, the person after the call is the person before
    it, field by field; nothing is noted as written. *)
Theorem zero_answers_leave_person_unchanged
        (net : Http.Network) (p : Models.Person)
        (a : AgifyResponse) (g : GenderizeResponse) (n : NationalizeResponse) :
  lookupAge net (Models.Name p) = inr a -> Age a = 0 ->
  lookupGender net (Models.Name p) = inr g -> Gender g = "" ->
  lookupNationality net (Models.Name p) = inr n -> Country n = [] ->
  enriched net p = p /\
  returned net p = None /\
  forall l, ~ logged DebugLevel (noteOf l) (log net p).
Proof.
  intros Ha Hage Hg Hgender Hn Hcountry.
  split; [|split].
  - rewrite enriched_eq, Ha, Hg, Hn. cbn [mergeAge mergeGender mergeNationality].
    now rewrite Hage, Hgender, Hcountry.
  - unfold returned, result. now rewrite EnrichPerson_eq.
  - intros l. rewrite not_logged, noted_iff_written, Ha, Hg, Hn, Hage, Hgender, Hcountry.
    destruct l; reflexivity.
Qed.

Lemma zero_answers_leave_person_unchanged_witness :
  enriched Scenario.unknownName Scenario.stored = Scenario.stored /\
  returned Scenario.unknownName Scenario.stored = None /\
  forall l, ~ logged DebugLevel (noteOf l) (log Scenario.unknownName Scenario.stored).
Proof.
  apply (zero_answers_leave_person_unchanged Scenario.unknownName Scenario.stored
           {| Age := 0 |} {| Gender := "" |} {| Country := [] |});
    vm_compute; reflexivity.
Defined.

(** C8. The URL of each of the three requests is the address of the
    service followed by the name of the person, character for character:
    nothing is trimmed, no case is changed and nothing is escaped. *)
Theorem lookup_urls_carry_name_verbatim (net : Http.Network) (p : Models.Person) :
  requests (log net p) =
  [ ("https://api.agify.io/?name=" ++ Models.Name p)%string;
    ("https://api.genderize.io/?name=" ++ Models.Name p)%string;
    ("https://api.nationalize.io/?name=" ++ Models.Name p)%string ].
Proof.
  rewrite requests_log, ageURL_eq, genderURL_eq, nationalityURL_eq. reflexivity.
Qed.

(** Blanks, capitals, [&], [%] and bytes outside ASCII reach the URL as
    they are. *)
Example lookup_url_keeps_special_characters :
  ageURL "  Anna-MARIA & Zoë %s=1 " = "https://api.agify.io/?name=  Anna-MARIA & Zoë %s=1 ".
Proof. reflexivity. Qed.

(** C9. [EnrichPerson] never clears a field.  After the call age, gender
    and nationality each hold either the value they held before or the
    value the lookup of that field returned without error; id, name,
    surname and patronymic are the ones of before; and a field that was
    present is present. *)
Theorem EnrichPerson_never_clears (net : Http.Network) (p : Models.Person) :
  let q := enriched net p in
  (Models.Age q = Models.Age p \/
   exists r, lookupAge net (Models.Name p) = inr r /\ Models.Age q = Some (Age r)) /\
  (Models.Gender q = Models.Gender p \/
   exists r, lookupGender net (Models.Name p) = inr r /\ Models.Gender q = Some (Gender r)) /\
  (Models.Nationality q = Models.Nationality p \/
   exists r first rest,
     lookupNationality net (Models.Name p) = inr r /\ Country r = first :: rest /\
     Models.Nationality q = Some (CountryID first)) /\
  (Models.ID q = Models.ID p /\ Models.Name q = Models.Name p /\
   Models.Surname q = Models.Surname p /\ Models.Patronymic q = Models.Patronymic p) /\
  (Models.Age p <> None -> Models.Age q <> None) /\
  (Models.Gender p <> None -> Models.Gender q <> None) /\
  (Models.Nationality p <> None -> Models.Nationality q <> None).
Proof.
  cbv zeta.
  rewrite age_enriched, gender_enriched, nationality_enriched.
  split; [|split; [|split; [|split; [apply frame_enriched|]]]].
  - destruct (lookupAge net (Models.Name p)) as [e|a]; cbn [mergeAge]; [now left|].
    destruct (Age a =? 0); [now left|]. right. now exists a.
  - destruct (lookupGender net (Models.Name p)) as [e|g]; cbn [mergeGender]; [now left|].
    destruct (String.eqb (Gender g) ""); [now left|]. right. now exists g.
  - destruct (lookupNationality net (Models.Name p)) as [e|n];
      cbn [mergeNationality]; [now left|].
    destruct (Country n) as [|first rest] eqn:Hc; [now left|].
    right. exists n, first, rest. now rewrite Hc.
  - split; [|split].
    + destruct (lookupAge net (Models.Name p)) as [e|a]; cbn [mergeAge]; [tauto|].
      destruct (Age a =? 0); [tauto|]. intros _. discriminate.
    + destruct (lookupGender net (Models.Name p)) as [e|g]; cbn [mergeGender]; [tauto|].
      destruct (String.eqb (Gender g) ""); [tauto|]. intros _. discriminate.
    + destruct (lookupNationality net (Models.Name p)) as [e|n];
        cbn [mergeNationality]; [tauto|].
      destruct (Country n); [tauto|]. intros _. discriminate.
Qed.

Lemma EnrichPerson_never_clears_witness :
  Models.Age (enriched Scenario.offline Scenario.stored) <> None /\
  Models.Gender (enriched Scenario.genderDown Scenario.stored) <> None /\
  Models.Nationality (enriched Scenario.emptyObjects Scenario.stored) <> None.
Proof.
  split; [|split].
  - destruct (EnrichPerson_never_clears Scenario.offline Scenario.stored)
      as [_ [_ [_ [_ [Hage _]]]]].
    apply Hage. discriminate.
  - destruct (EnrichPerson_never_clears Scenario.genderDown Scenario.stored)
      as [_ [_ [_ [_ [_ [Hgender _]]]]]].
    apply Hgender. discriminate.
  - destruct (EnrichPerson_never_clears Scenario.emptyObjects Scenario.stored)
      as [_ [_ [_ [_ [_ [_ Hnationality]]]]]].
    apply Hnationality. discriminate.
Defined.

(** C10. When a lookup is answered with status 200 and a JSON object in
    which no member is named as the member the lookup reads (the body
    [{}], for one), [fetchData] returns nil and the zero value: the field
    keeps the value it had, neither the lookup's warning nor its note is
    logged, and the whole run, person and log, is the run in which the
    service spells the zero value out ([{"age":0}], an empty gender, an
    empty country array). *)
Theorem missing_member_is_silent
        (l : lookup) (net : Http.Network) (p : Models.Person)
        (members : list (string * Json.value)) :
  answer net (Models.Name p) l = ok (Json.JObject members) ->
  lacks l members ->
  failure net (Models.Name p) l = None /\
  sameField l (enriched net p) p /\
  ~ logged WarnLevel (warningOf l) (log net p) /\
  ~ logged DebugLevel (noteOf l) (log net p) /\
  EnrichPerson net p
  = EnrichPerson (Http.answering net (lookupURL l (Models.Name p)) (ok (zeroBody l))) p.
Proof.
  intros Hanswer Hlacks.
  set (name := Models.Name p) in *.
  set (net0 := Http.answering net (lookupURL l name) (ok (zeroBody l))).
  rewrite !not_logged, warned_iff_failed, noted_iff_written.
  fold name. unfold failure, sameField.
  assert (Hother : forall l', l <> l' -> answer net0 name l' = answer net name l').
  { intros l' Hne. unfold net0. now apply answer_answering_other. }
  assert (Hzero : answer net0 name l = ok (zeroBody l)).
  { unfold net0. apply answer_answering_same. }
  destruct l.
  - assert (Hr : lookupAge net name = inr zeroAgify).
    { rewrite lookupAge_answer, Hanswer. now apply outcome_lacking_age. }
    rewrite age_enriched. fold name. rewrite Hr. repeat split.
    apply EnrichPerson_ext; fold name.
    + rewrite Hr, lookupAge_answer, Hzero. reflexivity.
    + rewrite !lookupGender_answer, Hother by discriminate. reflexivity.
    + rewrite !lookupNationality_answer, Hother by discriminate. reflexivity.
  - assert (Hr : lookupGender net name = inr zeroGenderize).
    { rewrite lookupGender_answer, Hanswer. now apply outcome_lacking_gender. }
    rewrite gender_enriched. fold name. rewrite Hr. repeat split.
    apply EnrichPerson_ext; fold name.
    + rewrite !lookupAge_answer, Hother by discriminate. reflexivity.
    + rewrite Hr, lookupGender_answer, Hzero. reflexivity.
    + rewrite !lookupNationality_answer, Hother by discriminate. reflexivity.
  - assert (Hr : lookupNationality net name = inr zeroNationalize).
    { rewrite lookupNationality_answer, Hanswer. now apply outcome_lacking_country. }
    rewrite nationality_enriched. fold name. rewrite Hr. repeat split.
    apply EnrichPerson_ext; fold name.
    + rewrite !lookupAge_answer, Hother by discriminate. reflexivity.
    + rewrite !lookupGender_answer, Hother by discriminate. reflexivity.
    + rewrite Hr, lookupNationality_answer, Hzero. reflexivity.
Qed.

Lemma missing_member_is_silent_witness :
  failure Scenario.emptyObjects "Dmitriy" AgeLookup = None /\
  Models.Age (enriched Scenario.emptyObjects Scenario.stored) = Some 42 /\
  ~ logged WarnLevel (warningOf AgeLookup) (log Scenario.emptyObjects Scenario.stored) /\
  ~ logged DebugLevel (noteOf AgeLookup) (log Scenario.emptyObjects Scenario.stored) /\
  EnrichPerson Scenario.emptyObjects Scenario.stored
  = EnrichPerson
      (Http.answering Scenario.emptyObjects (ageURL "Dmitriy") (ok (zeroBody AgeLookup)))
      Scenario.stored.
Proof.
  apply (missing_member_is_silent AgeLookup Scenario.emptyObjects Scenario.stored []).
  - reflexivity.
  - intros key v [].
Defined.

(* ------------------------------------------------------------------ *)
(** ** Further properties of the package and of the handlers *)
(* ------------------------------------------------------------------ *)

Import Server Reading.

(** *** fetchData *)

(** X1. [fetchData] returns nil exactly when the client got a response,
    its status is 200 and its body decodes into the target; the value
    handed back is then the decoded one. *)
Theorem fetchData_nil_iff {T} `{Json.Unmarshaler T}
        (c : Http.Client) (url : string) (target decoded : T) :
  result (fetchData c url target) = inr decoded <->
  exists resp,
    Http.Transport c (Http.Timeout c) url = inr resp /\
    Http.StatusCode resp = 200 /\
    Json.Decode (Http.Body resp) target = Json.Ok decoded.
Proof.
  rewrite fetchData_result. unfold outcome. split.
  - destruct (Http.Transport c (Http.Timeout c) url) as [err|resp]; [discriminate|].
    destruct (Z.eqb_spec (Http.StatusCode resp) 200) as [Hok|Hbad]; [|discriminate].
    destruct (Json.Decode (Http.Body resp) target) as [d|e] eqn:Hd; [|discriminate].
    intros Heq. injection Heq as <-. now exists resp.
  - intros [resp [-> [Hok Hd]]]. rewrite Hok, Hd. reflexivity.
Qed.

(** X2. With a status other than 200 the body is not looked at: whatever
    the body holds, [fetchData] returns the error that names the URL and
    the status. *)
Theorem fetchData_bad_status_ignores_body {T} `{Json.Unmarshaler T}
        (net : Http.Network) (url : string) (code : Z) (body : Json.input) (target : T) :
  code <> 200 ->
  result (fetchData (newClient (Http.answering net url
                       (inr {| Http.StatusCode := code; Http.Body := body |})))
                    url target)
  = inl (Errorf "получен некорректный статус-код от %s: %d" [AString url; AInt code]).
Proof.
  intros Hcode. rewrite fetchData_result. cbn [newClient Http.Transport Http.Timeout].
  unfold Http.answering. rewrite String.eqb_refl. unfold outcome. cbn [Http.StatusCode].
  destruct (Z.eqb_spec code 200); [contradiction | reflexivity].
Qed.

Lemma fetchData_bad_status_ignores_body_witness :
  result (fetchData (newClient (Http.answering Scenario.offline (ageURL "Dmitriy")
                       (Scenario.status 404 (Scenario.ageBody "Dmitriy" 42))))
                    (ageURL "Dmitriy") zeroAgify)
  = inl (Errorf "получен некорректный статус-код от %s: %d"
           [AString (ageURL "Dmitriy"); AInt 404]).
Proof.
  apply (fetchData_bad_status_ignores_body Scenario.offline (ageURL "Dmitriy") 404).
  discriminate.
Defined.


(** *** EnrichPerson *)

Lemma mergeAge_twice r p : mergeAge r (mergeAge r p) = mergeAge r p.
Proof. destruct r as [e|a]; cbn; [|destruct (Age a =? 0)]; reflexivity. Qed.

Lemma mergeGender_twice r p : mergeGender r (mergeGender r p) = mergeGender r p.
Proof. destruct r as [e|g]; cbn; [|destruct (String.eqb (Gender g) "")]; reflexivity. Qed.

Lemma mergeNationality_twice r p : mergeNationality r (mergeNationality r p) = mergeNationality r p.
Proof. destruct r as [e|n]; cbn; [|destruct (Country n)]; reflexivity. Qed.

(** X4. Enriching an enriched person again over the same network changes
    nothing more: the second run sends the same three requests and leaves
    the person as the first run left it. *)
Theorem EnrichPerson_idempotent (net : Http.Network) (p : Models.Person) :
  enriched net (enriched net p) = enriched net p /\
  requests (log net (enriched net p)) = requests (log net p).
Proof.
  destruct (frame_enriched net p) as [_ [Hname _]].
  split.
  - rewrite (enriched_eq net (enriched net p)), Hname, (enriched_eq net p).
    set (ra := lookupAge net (Models.Name p)).
    set (rg := lookupGender net (Models.Name p)).
    set (rn := lookupNationality net (Models.Name p)).
    destruct ra as [?|a], rg as [?|g], rn as [?|n]; cbn;
      try destruct (Age a =? 0); try destruct (String.eqb (Gender g) "");
      try destruct (Country n); reflexivity.
  - rewrite !requests_log, Hname. reflexivity.
Qed.

(** X5. A run reads the network through its three GETs only, each under
    the five-second timeout: two networks that answer these three alike
    give the same person, the same error and the same log, however they
    differ elsewhere. *)
Theorem EnrichPerson_reads_three_answers (net net' : Http.Network) (p : Models.Person) :
  (forall l, net (5 * Http.Second) (lookupURL l (Models.Name p))
             = net' (5 * Http.Second) (lookupURL l (Models.Name p))) ->
  EnrichPerson net p = EnrichPerson net' p.
Proof.
  intros Hsame. apply EnrichPerson_ext.
  - rewrite !lookupAge_answer. unfold answer. now rewrite (Hsame AgeLookup).
  - rewrite !lookupGender_answer. unfold answer. now rewrite (Hsame GenderLookup).
  - rewrite !lookupNationality_answer. unfold answer. now rewrite (Hsame NationalityLookup).
Qed.

Lemma EnrichPerson_reads_three_answers_witness :
  EnrichPerson Scenario.genderDown Scenario.stored
  = EnrichPerson
      (Http.answering
         (fun d u => if d =? 5 * Http.Second then Scenario.genderDown d u
                     else Scenario.timedOut)
         "https://example.org/" Scenario.timedOut)
      Scenario.stored.
Proof.
  apply EnrichPerson_reads_three_answers.
  intros l. destruct l; reflexivity.
Defined.

Lemma filter_warning_fetchTrace {T} url (r : error + T) :
  filter isWarning (fetchTrace url r) = [].
Proof. destruct r; reflexivity. Qed.

Lemma onlyDebugOrWarn_app (P : level -> Prop) (t1 t2 : list event) :
  (forall lvl format args, In (Logged lvl format args) t1 -> P lvl) ->
  (forall lvl format args, In (Logged lvl format args) t2 -> P lvl) ->
  forall lvl format args, In (Logged lvl format args) (t1 ++ t2) -> P lvl.
Proof.
  intros H1 H2 lvl format args Hin. apply in_app_or in Hin.
  destruct Hin as [Hin|Hin]; [apply (H1 _ _ _ Hin) | apply (H2 _ _ _ Hin)].
Qed.

(** X6. A run logs one warning for each lookup that failed and none for
    the others, and it never logs above warning level. *)
Theorem warnings_count_failures (net : Http.Network) (p : Models.Person) :
  length (filter isWarning (log net p)) = failures net (Models.Name p) /\
  (forall lvl format args,
     In (Logged lvl format args) (log net p) -> lvl = DebugLevel \/ lvl = WarnLevel).
Proof.
  rewrite log_eq. cbv zeta. split.
  - rewrite !filter_app, !filter_warning_fetchTrace, !length_app.
    unfold failures, failed, failure.
    destruct (lookupAge net (Models.Name p)) as [?|a];
      destruct (lookupGender net (Models.Name p)) as [?|g];
      destruct (lookupNationality net (Models.Name p)) as [?|n]; cbn;
      try destruct (Age a =? 0); try destruct (String.eqb (Gender g) "");
      try destruct (Country n); reflexivity.
  - repeat apply onlyDebugOrWarn_app; intros lvl format args Hin.
    + destruct Hin as [Hin|[]]. left. congruence.
    + destruct (lookupAge net (Models.Name p)); cbn in Hin;
        repeat (destruct Hin as [Hin|Hin]; [left; congruence|]); contradiction.
    + destruct (lookupAge net (Models.Name p)) as [?|a]; cbn in Hin;
        try destruct (Age a =? 0); cbn in Hin;
        repeat (destruct Hin as [Hin|Hin]; [(left; congruence) || (right; congruence)|]);
        contradiction.
    + destruct (lookupGender net (Models.Name p)); cbn in Hin;
        repeat (destruct Hin as [Hin|Hin]; [left; congruence|]); contradiction.
    + destruct (lookupGender net (Models.Name p)) as [?|g]; cbn in Hin;
        try destruct (String.eqb (Gender g) ""); cbn in Hin;
        repeat (destruct Hin as [Hin|Hin]; [(left; congruence) || (right; congruence)|]);
        contradiction.
    + destruct (lookupNationality net (Models.Name p)); cbn in Hin;
        repeat (destruct Hin as [Hin|Hin]; [left; congruence|]); contradiction.
    + destruct (lookupNationality net (Models.Name p)) as [?|n]; cbn in Hin;
        try destruct (Country n); cbn in Hin;
        repeat (destruct Hin as [Hin|Hin]; [(left; congruence) || (right; congruence)|]);
        contradiction.
    + destruct Hin as [Hin|[]]. left. congruence.
Qed.

Lemma append_cancel (prefix a b : string) :
  (prefix ++ a)%string = (prefix ++ b)%string -> a = b.
Proof.
  induction prefix as [|c prefix IH]; cbn; intros Heq.
  - exact Heq.
  - injection Heq as Heq. now apply IH.
Qed.

(** X7. The URL of a lookup tells the name and the service: two names
    never share the URL of a lookup, and the three lookups of one name
    never share a URL. *)
Theorem lookup_urls_distinct (l l' : lookup) (name name' : string) :
  lookupURL l name = lookupURL l' name' <-> l = l' /\ name = name'.
Proof.
  split.
  - destruct l, l'; cbn [lookupURL];
      rewrite ?ageURL_eq, ?genderURL_eq, ?nationalityURL_eq; intros Heq;
      try (split; [reflexivity | now apply append_cancel in Heq]);
      exfalso; cbn in Heq; discriminate.
  - intros [-> ->]. reflexivity.
Qed.

(** *** Reading the actions of a handler *)

Lemma responses_app t1 t2 : responses (t1 ++ t2) = responses t1 ++ responses t2.
Proof.
  induction t1 as [|a t1 IH]; cbn; [reflexivity|].
  destruct a as [[]| | | | |]; cbn; now rewrite IH.
Qed.

Lemma writes_app t1 t2 : writes (t1 ++ t2) = writes t1 ++ writes t2.
Proof.
  induction t1 as [|a t1 IH]; cbn; [reflexivity|].
  destruct a as [[]| | | | |]; cbn; now rewrite IH.
Qed.

Lemma statements_app t1 t2 : statements (t1 ++ t2) = statements t1 ++ statements t2.
Proof.
  induction t1 as [|a t1 IH]; cbn; [reflexivity|].
  destruct a; cbn; now rewrite IH.
Qed.

Lemma lookups_app t1 t2 : lookups (t1 ++ t2) = lookups t1 ++ lookups t2.
Proof.
  induction t1 as [|a t1 IH]; cbn; [reflexivity|].
  destruct a as [[]| | | | |]; cbn; now rewrite IH.
Qed.

Lemma lookups_core t : lookups (map Core t) = requests t.
Proof.
  induction t as [|e t IH]; cbn; [reflexivity|]. destruct e; cbn; now rewrite IH.
Qed.

Lemma statements_core t : statements (map Core t) = [].
Proof. induction t as [|e t IH]; cbn; [reflexivity | exact IH]. Qed.

(** The orchestrator answers no client and writes to no database. *)
Lemma responses_log net p : responses (map Core (log net p)) = [].
Proof.
  rewrite log_eq. cbv zeta. rewrite !map_app, !responses_app.
  destruct (lookupAge net (Models.Name p)) as [?|a];
    destruct (lookupGender net (Models.Name p)) as [?|g];
    destruct (lookupNationality net (Models.Name p)) as [?|n]; cbn;
    try destruct (Age a =? 0); try destruct (String.eqb (Gender g) "");
    try destruct (Country n); reflexivity.
Qed.

Lemma writes_log net p : writes (map Core (log net p)) = [].
Proof.
  rewrite log_eq. cbv zeta. rewrite !map_app, !writes_app.
  destruct (lookupAge net (Models.Name p)) as [?|a];
    destruct (lookupGender net (Models.Name p)) as [?|g];
    destruct (lookupNationality net (Models.Name p)) as [?|n]; cbn;
    try destruct (Age a =? 0); try destruct (String.eqb (Gender g) "");
    try destruct (Country n); reflexivity.
Qed.

Lemma lookups_log net p : lookups (map Core (log net p)) = urlsOf (Models.Name p).
Proof. rewrite lookups_core. apply requests_log. Qed.

Lemma EnrichPerson_run net p : EnrichPerson net p = ((enriched net p, None), log net p).
Proof. unfold enriched, log, result, trace. now rewrite EnrichPerson_eq. Qed.

(** *** UpdatePerson *)

Lemma applyInput_eq found input :
  match Models.InputPatronymic input with
  | Some _ =>
      Models.setPatronymic
        (if negb (String.eqb (Models.InputSurname input) "")
         then Models.setSurname
                (if negb (String.eqb (Models.InputName input) "")
                 then Models.setName found (Models.InputName input) else found)
                (Models.InputSurname input)
         else if negb (String.eqb (Models.InputName input) "")
              then Models.setName found (Models.InputName input) else found)
        (Models.InputPatronymic input)
  | None =>
      if negb (String.eqb (Models.InputSurname input) "")
      then Models.setSurname
             (if negb (String.eqb (Models.InputName input) "")
              then Models.setName found (Models.InputName input) else found)
             (Models.InputSurname input)
      else if negb (String.eqb (Models.InputName input) "")
           then Models.setName found (Models.InputName input) else found
  end = applyInput found input.
Proof.
  unfold applyInput. destruct found, input as [iname isurname ipatronymic]; cbn.
  destruct ipatronymic, (String.eqb iname ""), (String.eqb isurname ""); reflexivity.
Qed.

(** The actions of [UpdatePerson] once the person is found and the
    request is bound. *)
Lemma UpdatePerson_found net db c found input :
  Gorm.First db (Gin.Param c "id") = inr found ->
  Gin.ShouldBindJSON c = inr input ->
  let q := enriched net (applyInput found input) in
  lookups (updateActions net db c) = urlsOf (Models.Name (applyInput found input)) /\
  writes (updateActions net db c) = [WriteSave q] /\
  responses (updateActions net db c) =
    [match Gorm.SaveError db q with
     | None => JSONResponse 200 (PersonBody q)
     | Some _ => JSONResponse 500 (ErrorBody "Failed to update person")
     end].
Proof.
  intros Hfound Hinput. cbv zeta. unfold updateActions, Handlers.UpdatePerson.
  rewrite Hfound, Hinput. cbv zeta. rewrite applyInput_eq.
  rewrite EnrichPerson_run. unfold Gorm.Save.
  cbn [bind Config.Info Config.Debugf emit ret fst snd trace].
  destruct (Gorm.SaveError db (enriched net (applyInput found input)));
    cbn [bind Config.Errorf Config.Infof Gin.JSON emit ret fst snd trace app];
    rewrite ?app_nil_r;
    cbn [map lookups writes responses];
    rewrite !map_app, ?lookups_app, ?writes_app, ?responses_app,
      ?lookups_log, ?writes_log, ?responses_log;
    repeat split; try reflexivity.
Qed.

(** *** GetPeople *)

Lemma logsOnly_silent t :
  logsOnly t ->
  responses (map Core t) = [] /\ writes (map Core t) = [] /\
  lookups (map Core t) = [] /\ statements (map Core t) = [].
Proof.
  intros Hlogs. induction t as [|e t IH]; cbn; [repeat split|].
  destruct (Hlogs e (or_introl eq_refl)) as [lvl [format [args ->]]]. cbn.
  apply IH. intros e' Hin. apply Hlogs. now right.
Qed.

Lemma logsOnly_app t1 t2 : logsOnly t1 -> logsOnly t2 -> logsOnly (t1 ++ t2).
Proof.
  intros H1 H2 e Hin. apply in_app_or in Hin. destruct Hin; [now apply H1 | now apply H2].
Qed.

Lemma logsOnly_nil : logsOnly [].
Proof. intros e []. Qed.

Lemma logsOnly_one lvl format args : logsOnly [Logged lvl format args].
Proof. intros e [<-|[]]. now exists lvl, format, args. Qed.

Lemma actions_bindH {A B} (a : A) (t : list action) (k : A -> H B) :
  actions (bindH (a, t) k) = t ++ actions (k a).
Proof. unfold bindH, actions. destruct (k a). reflexivity. Qed.

Lemma addConditions_nil q : addConditions q [] = q.
Proof. destruct q. unfold addConditions. cbn. now rewrite app_nil_r. Qed.

Lemma addConditions_app q cs cs' :
  addConditions (addConditions q cs) cs' = addConditions q (cs ++ cs').
Proof. unfold addConditions. cbn. now rewrite app_assoc. Qed.

(** A text filter adds its condition, or nothing, and only logs. *)
Lemma text_step values q key sql format :
  exists t,
    logsOnly t /\
    (if negb (String.eqb (QueryOf values key) "")
     then bindH (lift (Config.Debugf format [AString (QueryOf values key)]))
                (fun _ => retH (Where q sql (SqlText ("%" ++ QueryOf values key ++ "%")%string)))
     else retH q)
    = (addConditions q (textFilter values key sql), map Core t).
Proof.
  unfold textFilter. destruct (String.eqb (QueryOf values key) ""); cbn [negb].
  - exists []. split; [apply logsOnly_nil|]. now rewrite addConditions_nil.
  - eexists. split; [apply logsOnly_one|]. reflexivity.
Qed.

Lemma age_step values q key sql format :
  exists t,
    logsOnly t /\
    (if negb (String.eqb (QueryOf values key) "")
     then match Strconv.Atoi (QueryOf values key) with
          | (n, None) =>
              bindH (lift (Config.Debugf format [AInt n])) (fun _ => retH (Where q sql (SqlInt n)))
          | (_, Some _) => retH q
          end
     else retH q)
    = (addConditions q (ageFilter values key sql), map Core t).
Proof.
  unfold ageFilter. destruct (String.eqb (QueryOf values key) ""); cbn [negb].
  - exists []. split; [apply logsOnly_nil|]. now rewrite addConditions_nil.
  - destruct (Strconv.Atoi (QueryOf values key)) as [n [e|]].
    + exists []. split; [apply logsOnly_nil|]. now rewrite addConditions_nil.
    + eexists. split; [apply logsOnly_one|]. reflexivity.
Qed.

Ltac filter_step lemma sql format :=
  match goal with
  | |- context [bindH (if negb (String.eqb (QueryOf ?values ?key) "") then _ else retH ?q) _] =>
      let t := fresh "t" in
      let Hlogs := fresh "Hlogs" in
      let Hstep := fresh "Hstep" in
      destruct (lemma values q key sql format) as [t [Hlogs Hstep]];
      rewrite Hstep; clear Hstep; rewrite actions_bindH; cbv beta
  end.

(** What [GetPeople] does, in order: it logs, runs one statement and
    answers. *)
Lemma GetPeople_trace (db : DB) (values : Values) :
  exists t,
    logsOnly t /\
    actions (GetPeople db values) =
    map Core t
    ++ Listed (statementOf values)
    :: match FindAll db (statementOf values) with
       | inl err =>
           [Core (Logged ErrorLevel "Error getting people: %v" [AError err]);
            Core (Replied 500 (ErrorBody "Failed to retrieve people"))]
       | inr people =>
           [RepliedPeople 200 people;
            Core (Logged InfoLevel "Successfully retrieved people" [])]
       end.
Proof.
  unfold GetPeople, statementOf, filtersOf, pageOf, limitOf. cbv zeta.
  set (page := fst (Strconv.Atoi (DefaultQuery values "page" "1"))).
  set (limit := fst (Strconv.Atoi (DefaultQuery values "limit" "10"))).
  unfold lift at 1. cbn [Config.Info emit fst snd map]. rewrite actions_bindH. cbv beta.
  filter_step text_step "name ILIKE ?" "Filtering by name: %s".
  filter_step text_step "surname ILIKE ?" "Filtering by surname: %s".
  filter_step text_step "patronymic ILIKE ?" "Filtering by patronymic: %s".
  filter_step age_step "age >= ?" "Filtering by min age: %d".
  filter_step age_step "age <= ?" "Filtering by max age: %d".
  filter_step text_step "gender ILIKE ?" "Filtering by gender: %s".
  filter_step text_step "nationality ILIKE ?" "Filtering by nationality: %s".
  rewrite !addConditions_app.
  match goal with |- context [addConditions allRows ?cs] => set (conditions := cs) end.
  unfold Find, act, retH, lift. cbn [Config.Debugf emit fst snd map].
  rewrite !actions_bindH. cbv beta.
  exists ([Logged InfoLevel "Handling GetPeople request" []]
          ++ t ++ t0 ++ t1 ++ t2 ++ t3 ++ t4 ++ t5
          ++ [Logged DebugLevel "Applying pagination: page=%d, limit=%d, offset=%d"
                [AInt page; AInt limit;
                 AInt (Strconv.wrap (Strconv.wrap (page - 1) * limit))]]).
  split.
  - repeat apply logsOnly_app; try assumption; apply logsOnly_one.
  - rewrite !map_app. cbn [map app]. rewrite <- !app_assoc. cbn [app].
    repeat f_equal.
    destruct (FindAll db _); reflexivity.
Qed.

Lemma GetPeople_actions (db : DB) (values : Values) :
  statements (actions (GetPeople db values)) = [statementOf values] /\
  responses (actions (GetPeople db values)) =
    [match FindAll db (statementOf values) with
     | inr people => PeopleResponse 200 people
     | inl _ => JSONResponse 500 (ErrorBody "Failed to retrieve people")
     end] /\
  writes (actions (GetPeople db values)) = [] /\
  lookups (actions (GetPeople db values)) = [].
Proof.
  destruct (GetPeople_trace db values) as [t [Hlogs ->]].
  destruct (logsOnly_silent t Hlogs) as [R [W [L S]]].
  rewrite statements_app, responses_app, writes_app, lookups_app, R, W, L, S.
  destruct (FindAll db (statementOf values)); repeat split; reflexivity.
Qed.

(** *** The extras on UpdatePerson *)

(** X8. When [First] fails, [UpdatePerson] answers once, 404 for a record
    not found and 500 for any other error, and does nothing else: no
    lookup is sent and nothing is saved. *)
Theorem UpdatePerson_unknown_id
        (net : Http.Network) (db : Gorm.DB) (c : Gin.Context) (err : error) :
  Gorm.First db (Gin.Param c "id") = inl err ->
  responses (updateActions net db c)
  = [notFoundOr err "Failed to retrieve person for update"] /\
  writes (updateActions net db c) = [] /\
  lookups (updateActions net db c) = [].
Proof.
  intros Hfirst. unfold updateActions, Handlers.UpdatePerson. rewrite Hfirst.
  destruct err; repeat split; reflexivity.
Qed.

Lemma UpdatePerson_unknown_id_witness :
  responses (updateActions Scenario.genderDown Scenario.database missingPerson)
  = [JSONResponse 404 (ErrorBody "Person not found")] /\
  writes (updateActions Scenario.genderDown Scenario.database missingPerson) = [] /\
  lookups (updateActions Scenario.genderDown Scenario.database missingPerson) = [].
Proof.
  apply (UpdatePerson_unknown_id Scenario.genderDown Scenario.database missingPerson
           ErrRecordNotFound).
  reflexivity.
Defined.

(** X9. When the person is found and the body of the request does not
    bind, [UpdatePerson] answers 400 with the text of the binding error;
    no lookup is sent and nothing is saved. *)
Theorem UpdatePerson_bad_request
        (net : Http.Network) (db : Gorm.DB) (c : Gin.Context)
        (found : Models.Person) (err : error) :
  Gorm.First db (Gin.Param c "id") = inr found ->
  Gin.ShouldBindJSON c = inl err ->
  responses (updateActions net db c) = [JSONResponse 400 (ErrorText err)] /\
  writes (updateActions net db c) = [] /\
  lookups (updateActions net db c) = [].
Proof.
  intros Hfirst Hbind. unfold updateActions, Handlers.UpdatePerson.
  rewrite Hfirst, Hbind. repeat split; reflexivity.
Qed.

Lemma UpdatePerson_bad_request_witness :
  responses (updateActions Scenario.genderDown Scenario.database badJSON)
  = [JSONResponse 400
       (ErrorText (LibError "invalid character '}' looking for beginning of value"))] /\
  writes (updateActions Scenario.genderDown Scenario.database badJSON) = [] /\
  lookups (updateActions Scenario.genderDown Scenario.database badJSON) = [].
Proof.
  apply (UpdatePerson_bad_request Scenario.genderDown Scenario.database badJSON Scenario.stored);
    reflexivity.
Defined.

(** X10. When the person is found and the request binds, [UpdatePerson]
    always enriches again: it sends the three lookups for the name the
    person now has, also when the request changed nothing, saves the
    enriched person once, whatever the lookups returned, and answers 200
    with the person saved, or 500 when the save failed. *)
Theorem UpdatePerson_reenriches_and_saves
        (net : Http.Network) (db : Gorm.DB) (c : Gin.Context)
        (found : Models.Person) (input : Models.PersonInput) :
  Gorm.First db (Gin.Param c "id") = inr found ->
  Gin.ShouldBindJSON c = inr input ->
  let q := enriched net (applyInput found input) in
  lookups (updateActions net db c) = urlsOf (Models.Name (applyInput found input)) /\
  writes (updateActions net db c) = [WriteSave q] /\
  responses (updateActions net db c) =
    [match Gorm.SaveError db q with
     | None => JSONResponse 200 (PersonBody q)
     | Some _ => JSONResponse 500 (ErrorBody "Failed to update person")
     end].
Proof.
  intros Hfound Hinput. cbv zeta.
  destruct (UpdatePerson_found net db c found input Hfound Hinput) as [Hl [Hw Hr]].
  split; [exact Hl|]. split; [exact Hw | exact Hr].
Qed.

Lemma UpdatePerson_reenriches_and_saves_witness :
  lookups (updateActions Scenario.offline Scenario.database Scenario.updateRequest)
  = urlsOf "Dmitriy" /\
  writes (updateActions Scenario.offline Scenario.database Scenario.updateRequest)
  = [WriteSave Scenario.stored] /\
  responses (updateActions Scenario.offline Scenario.database Scenario.updateRequest)
  = [JSONResponse 200 (PersonBody Scenario.stored)].
Proof.
  apply (UpdatePerson_reenriches_and_saves Scenario.offline Scenario.database
           Scenario.updateRequest Scenario.stored
           {| Models.InputName := "Dmitriy"; Models.InputSurname := "Ushakov";
              Models.InputPatronymic := None |});
    reflexivity.
Defined.

(** X11. The person [UpdatePerson] saves has the id of the person found.
    Its name and surname are those of the request when the request gives
    them, and the stored ones when the request leaves them empty; its
    patronymic is the one of the request when the request has one, and the
    stored one otherwise, so an update cannot remove a patronymic. *)
Theorem UpdatePerson_applies_given_fields
        (net : Http.Network) (db : Gorm.DB) (c : Gin.Context)
        (found : Models.Person) (input : Models.PersonInput) :
  Gorm.First db (Gin.Param c "id") = inr found ->
  Gin.ShouldBindJSON c = inr input ->
  exists q,
    writes (updateActions net db c) = [WriteSave q] /\
    Models.ID q = Models.ID found /\
    Models.Name q = (if String.eqb (Models.InputName input) ""
                     then Models.Name found else Models.InputName input) /\
    Models.Surname q = (if String.eqb (Models.InputSurname input) ""
                        then Models.Surname found else Models.InputSurname input) /\
    Models.Patronymic q = match Models.InputPatronymic input with
                          | Some v => Some v
                          | None => Models.Patronymic found
                          end.
Proof.
  intros Hfound Hinput.
  destruct (UpdatePerson_found net db c found input Hfound Hinput) as [_ [Hw _]].
  exists (enriched net (applyInput found input)). split; [exact Hw|].
  destruct (frame_enriched net (applyInput found input)) as [Hid [Hname [Hsurname Hpat]]].
  rewrite Hid, Hname, Hsurname, Hpat. repeat split; reflexivity.
Qed.

Lemma UpdatePerson_applies_given_fields_witness :
  exists q,
    writes (updateActions Scenario.genderDown Scenario.database Scenario.updateRequest)
    = [WriteSave q] /\
    Models.ID q = 7 /\ Models.Name q = "Dmitriy" /\ Models.Surname q = "Ushakov" /\
    Models.Patronymic q = Some "Vasilevich".
Proof.
  apply (UpdatePerson_applies_given_fields Scenario.genderDown Scenario.database
           Scenario.updateRequest Scenario.stored
           {| Models.InputName := "Dmitriy"; Models.InputSurname := "Ushakov";
              Models.InputPatronymic := None |});
    reflexivity.
Defined.

(** X12. On every path [UpdatePerson] answers the client exactly once,
    and it calls the database to write at most once. *)
Theorem UpdatePerson_answers_once (net : Http.Network) (db : Gorm.DB) (c : Gin.Context) :
  length (responses (updateActions net db c)) = 1%nat /\
  (length (writes (updateActions net db c)) <= 1)%nat.
Proof.
  destruct (Gorm.First db (Gin.Param c "id")) as [err|found] eqn:Hfirst.
  - unfold updateActions, Handlers.UpdatePerson. rewrite Hfirst.
    destruct err; (split; [reflexivity | apply Nat.le_0_l]).
  - destruct (Gin.ShouldBindJSON c) as [err|input] eqn:Hbind.
    + unfold updateActions, Handlers.UpdatePerson. rewrite Hfirst, Hbind.
      split; [reflexivity | apply Nat.le_0_l].
    + destruct (UpdatePerson_found net db c found input Hfirst Hbind) as [_ [-> ->]].
      split; [reflexivity | apply Nat.le_refl].
Qed.

(** *** The extras on the other handlers *)

(** X13. [GetPersonByID] only reads: it answers once, 200 with the person
    [First] found, 404 when no record was found and 500 on any other
    error; it writes nothing, lists nothing and sends no lookup. *)
Theorem GetPersonByID_only_reads (db : DB) (c : Gin.Context) :
  responses (actions (GetPersonByID db c)) =
    [match Gorm.First (Rows db) (Gin.Param c "id") with
     | inr person => JSONResponse 200 (PersonBody person)
     | inl err => notFoundOr err "Failed to retrieve person"
     end] /\
  writes (actions (GetPersonByID db c)) = [] /\
  statements (actions (GetPersonByID db c)) = [] /\
  lookups (actions (GetPersonByID db c)) = [].
Proof.
  unfold GetPersonByID. cbv zeta.
  destruct (Gorm.First (Rows db) (Gin.Param c "id")) as [err|person].
  - destruct err; repeat split; reflexivity.
  - repeat split; reflexivity.
Qed.

(** X14. [DeletePerson] deletes only a person [First] found, and that
    person: when [First] fails it answers 404 or 500 and calls no
    [Delete]; otherwise it calls [Delete] once on the person found and
    answers 204 without a body, or 500 when the deletion failed.  It never
    sends a lookup. *)
Theorem DeletePerson_deletes_what_it_found (db : DB) (c : Gin.Context) :
  match Gorm.First (Rows db) (Gin.Param c "id") with
  | inl err =>
      writes (actions (DeletePerson db c)) = [] /\
      responses (actions (DeletePerson db c))
      = [notFoundOr err "Failed to retrieve person for deletion"]
  | inr person =>
      writes (actions (DeletePerson db c)) = [WriteDelete person] /\
      responses (actions (DeletePerson db c)) =
        [match DeleteError db person with
         | None => StatusResponse 204
         | Some _ => JSONResponse 500 (ErrorBody "Failed to delete person")
         end]
  end /\
  lookups (actions (DeletePerson db c)) = [].
Proof.
  unfold DeletePerson. cbv zeta.
  destruct (Gorm.First (Rows db) (Gin.Param c "id")) as [err|person].
  - destruct err; repeat split; reflexivity.
  - unfold Delete. cbn [bindH act retH lift fst snd Config.Info emit map app].
    destruct (DeleteError db person); repeat split; reflexivity.
Qed.

(** What [CreatePerson] does once the request is bound. *)
Lemma CreatePerson_bound net db c input :
  Gin.ShouldBindJSON c = inr input ->
  let q := enriched net (fresh input) in
  lookups (actions (CreatePerson net db c)) = urlsOf (Models.InputName input) /\
  writes (actions (CreatePerson net db c)) = [WriteCreate q] /\
  responses (actions (CreatePerson net db c)) =
    [match CreateResult db q with
     | inr person => JSONResponse 201 (PersonBody person)
     | inl _ => JSONResponse 500 (ErrorBody "Failed to create person")
     end].
Proof.
  intros Hbind. cbv zeta. unfold CreatePerson. rewrite Hbind. cbv zeta.
  fold (fresh input). rewrite EnrichPerson_run. unfold Create, actions.
  cbn [bindH act retH lift fst snd Config.Info emit map app].
  destruct (CreateResult db (enriched net (fresh input)));
    cbn [bindH lift fst snd Config.Errorf Config.Infof Gin.JSON emit map app];
    rewrite ?app_nil_r; cbn [lookups writes responses];
    rewrite ?lookups_app, ?writes_app, ?responses_app,
      ?lookups_log, ?writes_log, ?responses_log;
    repeat split; reflexivity.
Qed.

(** X15. When the body of the request does not bind, [CreatePerson]
    answers 400 with the text of the binding error and does nothing else:
    no lookup is sent and nothing is created. *)
Theorem CreatePerson_bad_request
        (net : Http.Network) (db : DB) (c : Gin.Context) (err : error) :
  Gin.ShouldBindJSON c = inl err ->
  responses (actions (CreatePerson net db c)) = [JSONResponse 400 (ErrorText err)] /\
  writes (actions (CreatePerson net db c)) = [] /\
  lookups (actions (CreatePerson net db c)) = [].
Proof.
  intros Hbind. unfold CreatePerson. rewrite Hbind. repeat split; reflexivity.
Qed.

Lemma CreatePerson_bad_request_witness :
  responses (actions (CreatePerson Scenario.genderDown sampleDB badJSON))
  = [JSONResponse 400
       (ErrorText (LibError "invalid character '}' looking for beginning of value"))] /\
  writes (actions (CreatePerson Scenario.genderDown sampleDB badJSON)) = [] /\
  lookups (actions (CreatePerson Scenario.genderDown sampleDB badJSON)) = [].
Proof.
  apply (CreatePerson_bad_request Scenario.genderDown sampleDB badJSON). reflexivity.
Defined.

(** X16. When the request binds, [CreatePerson] sends the three lookups
    for the name of the request, calls [Create] once on the enriched
    person, whatever the lookups returned, and answers 201 with the person
    as [Create] left it, or 500 when [Create] failed. *)
Theorem CreatePerson_enriches_and_creates
        (net : Http.Network) (db : DB) (c : Gin.Context) (input : Models.PersonInput) :
  Gin.ShouldBindJSON c = inr input ->
  let q := enriched net (fresh input) in
  lookups (actions (CreatePerson net db c)) = urlsOf (Models.InputName input) /\
  writes (actions (CreatePerson net db c)) = [WriteCreate q] /\
  responses (actions (CreatePerson net db c)) =
    [match CreateResult db q with
     | inr person => JSONResponse 201 (PersonBody person)
     | inl _ => JSONResponse 500 (ErrorBody "Failed to create person")
     end].
Proof.
  intros Hbind. cbv zeta.
  destruct (CreatePerson_bound net db c input Hbind) as [Hl [Hw Hr]].
  split; [exact Hl|]. split; [exact Hw | exact Hr].
Qed.

Lemma CreatePerson_enriches_and_creates_witness :
  lookups (actions (CreatePerson Scenario.offline sampleDB Scenario.updateRequest))
  = urlsOf "Dmitriy" /\
  writes (actions (CreatePerson Scenario.offline sampleDB Scenario.updateRequest))
  = [WriteCreate
       {| Models.ID := 0; Models.Name := "Dmitriy"; Models.Surname := "Ushakov";
          Models.Patronymic := None;
          Models.Age := None; Models.Gender := None; Models.Nationality := None |}] /\
  responses (actions (CreatePerson Scenario.offline sampleDB Scenario.updateRequest))
  = [JSONResponse 201
       (PersonBody
          {| Models.ID := 8; Models.Name := "Dmitriy"; Models.Surname := "Ushakov";
             Models.Patronymic := None;
             Models.Age := None; Models.Gender := None; Models.Nationality := None |})].
Proof.
  apply (CreatePerson_enriches_and_creates Scenario.offline sampleDB Scenario.updateRequest
           {| Models.InputName := "Dmitriy"; Models.InputSurname := "Ushakov";
              Models.InputPatronymic := None |}).
  reflexivity.
Defined.

(** X17. The person [CreatePerson] hands to [Create] carries the name,
    surname and patronymic of the request, and a field whose lookup
    failed is absent in it: at creation there is no earlier value a failed
    lookup could leave behind. *)
Theorem CreatePerson_failed_lookup_is_absent
        (net : Http.Network) (db : DB) (c : Gin.Context) (input : Models.PersonInput)
        (l : lookup) :
  Gin.ShouldBindJSON c = inr input ->
  failure net (Models.InputName input) l <> None ->
  exists q,
    writes (actions (CreatePerson net db c)) = [WriteCreate q] /\
    absent l q /\
    Models.Name q = Models.InputName input /\
    Models.Surname q = Models.InputSurname input /\
    Models.Patronymic q = Models.InputPatronymic input.
Proof.
  intros Hbind Hfail.
  destruct (CreatePerson_bound net db c input Hbind) as [_ [Hw _]].
  exists (enriched net (fresh input)). split; [exact Hw|].
  destruct (frame_enriched net (fresh input)) as [_ [Hname [Hsurname Hpat]]].
  split; [|now rewrite Hname, Hsurname, Hpat].
  pose proof (field_after_failure net (fresh input) l Hfail) as Hsame.
  destruct l; unfold sameField in Hsame; unfold absent; rewrite Hsame; reflexivity.
Qed.

Lemma CreatePerson_failed_lookup_is_absent_witness :
  exists q,
    writes (actions (CreatePerson Scenario.genderDown sampleDB Scenario.updateRequest))
    = [WriteCreate q] /\
    Models.Gender q = None /\
    Models.Name q = "Dmitriy" /\ Models.Surname q = "Ushakov" /\ Models.Patronymic q = None.
Proof.
  apply (CreatePerson_failed_lookup_is_absent Scenario.genderDown sampleDB
           Scenario.updateRequest
           {| Models.InputName := "Dmitriy"; Models.InputSurname := "Ushakov";
              Models.InputPatronymic := None |}
           GenderLookup).
  - reflexivity.
  - vm_compute. discriminate.
Defined.

(** *** The extras on GetPeople *)

Lemma wrap_small z : - 2 ^ 63 <= z < 2 ^ 63 -> Strconv.wrap z = z.
Proof.
  intros Hz. unfold Strconv.wrap. rewrite Z.mod_small; lia.
Qed.

Lemma digit_nonneg c d : Strconv.digit c = Some d -> 0 <= d.
Proof.
  unfold Strconv.digit. cbv zeta.
  destruct (Z.leb_spec 48 (Z.of_nat (nat_of_ascii c))); cbn [andb]; [|discriminate].
  destruct (Z.of_nat (nat_of_ascii c) <=? 57); [|discriminate].
  intros Heq. injection Heq as <-. lia.
Qed.

Lemma scanDigits_nonneg s : forall n un,
  0 <= n -> Strconv.scanDigits s n = Strconv.Number un -> 0 <= un.
Proof.
  induction s as [|c s IH]; cbn [Strconv.scanDigits]; intros n un Hn Hscan.
  - injection Hscan as <-. exact Hn.
  - destruct (Strconv.digit c) as [d|] eqn:Hd; [|discriminate].
    apply digit_nonneg in Hd.
    destruct (Strconv.maxUint64 <? n * 10 + d); [discriminate|].
    apply (IH (n * 10 + d)); [lia | exact Hscan].
Qed.

(** A number [Atoi] returns without error is an [int]. *)
Lemma Atoi_range s z : Strconv.Atoi s = (z, None) -> Json.minInt <= z <= Json.maxInt.
Proof.
  unfold Strconv.Atoi, Json.minInt, Json.maxInt.
  set (split := match s with
                | String "-" rest => (true, rest)
                | String "+" rest => (false, rest)
                | _ => (false, s)
                end).
  destruct split as [neg digits].
  destruct digits as [|c rest]; [discriminate|].
  destruct (Strconv.scanDigits (String c rest) 0) as [un| |] eqn:Hscan; try discriminate.
  pose proof (scanDigits_nonneg _ 0 un (Z.le_refl 0) Hscan) as Hun.
  destruct neg.
  - destruct (Z.ltb_spec (2 ^ 63) un); [discriminate|].
    intros Heq. injection Heq as <-. lia.
  - destruct (Z.leb_spec (2 ^ 63) un); [discriminate|].
    intros Heq. injection Heq as <-. lia.
Qed.


Lemma DefaultQuery_missing values key d : GetQuery values key = None -> DefaultQuery values key d = d.
Proof. unfold DefaultQuery. now intros ->. Qed.


(** X18. [GetPeople] only reads: it runs one statement, answers once, 200
    with the persons the statement returned or 500 when it failed, writes
    nothing and sends no lookup.  No value of the query string makes it
    answer 400. *)
Theorem GetPeople_only_reads (db : DB) (values : Values) :
  exists q,
    statements (actions (GetPeople db values)) = [q] /\
    responses (actions (GetPeople db values)) =
      [match FindAll db q with
       | inr people => PeopleResponse 200 people
       | inl _ => JSONResponse 500 (ErrorBody "Failed to retrieve people")
       end] /\
    writes (actions (GetPeople db values)) = [] /\
    lookups (actions (GetPeople db values)) = [].
Proof.
  exists (statementOf values). apply GetPeople_actions.
Qed.

(** X19. With a page [p >= 1] and a limit [n >= 0] that [Atoi] reads, and
    a product that fits an [int], the statement is limited to [n] rows and
    skips [(p - 1) * n] rows. *)
Theorem GetPeople_pagination (db : DB) (values : Values) (p n : Z) :
  Strconv.Atoi (DefaultQuery values "page" "1") = (p, None) ->
  Strconv.Atoi (DefaultQuery values "limit" "10") = (n, None) ->
  1 <= p -> 0 <= n -> (p - 1) * n < 2 ^ 63 ->
  exists q,
    statements (actions (GetPeople db values)) = [q] /\
    LimitTo q = Some n /\
    OffsetBy q = Some ((p - 1) * n).
Proof.
  intros Hpage Hlimit Hp Hn Hfit.
  exists (statementOf values). split; [apply GetPeople_actions|].
  unfold statementOf, pageOf, limitOf. rewrite Hpage, Hlimit. cbn [fst LimitTo OffsetBy Limit Offset].
  split; [reflexivity|]. f_equal.
  pose proof (Atoi_range _ _ Hpage) as Hrange. unfold Json.minInt, Json.maxInt in Hrange.
  rewrite (wrap_small (p - 1)) by lia.
  apply wrap_small. nia.
Qed.

Lemma GetPeople_pagination_witness :
  exists q,
    statements (actions (GetPeople sampleDB [("page", "3"); ("limit", "25")])) = [q] /\
    LimitTo q = Some 25 /\
    OffsetBy q = Some ((3 - 1) * 25).
Proof.
  apply (GetPeople_pagination sampleDB [("page", "3"); ("limit", "25")] 3 25);
    [reflexivity | reflexivity | lia | lia | lia].
Defined.

(** X20. Without [page] and [limit] in the query string the statement is
    limited to 10 rows and skips none. *)
Theorem GetPeople_default_pagination (db : DB) (values : Values) :
  GetQuery values "page" = None ->
  GetQuery values "limit" = None ->
  exists q,
    statements (actions (GetPeople db values)) = [q] /\
    LimitTo q = Some 10 /\
    OffsetBy q = Some 0.
Proof.
  intros Hpage Hlimit.
  exists (statementOf values). split; [apply GetPeople_actions|].
  unfold statementOf, pageOf, limitOf.
  rewrite (DefaultQuery_missing _ _ _ Hpage), (DefaultQuery_missing _ _ _ Hlimit).
  split; reflexivity.
Qed.

Lemma GetPeople_default_pagination_witness :
  exists q,
    statements (actions (GetPeople sampleDB [("name", "Dmi")])) = [q] /\
    LimitTo q = Some 10 /\
    OffsetBy q = Some 0.
Proof.
  apply (GetPeople_default_pagination sampleDB [("name", "Dmi")]); reflexivity.
Defined.



Lemma conditions_statementOf values : Conditions (statementOf values) = filtersOf values.
Proof. reflexivity. Qed.

Lemma in_textFilter values key sql s arg :
  In (s, arg) (textFilter values key sql) <->
  s = sql /\ QueryOf values key <> "" /\
  arg = SqlText ("%" ++ QueryOf values key ++ "%")%string.
Proof.
  unfold textFilter. cbv zeta.
  destruct (String.eqb_spec (QueryOf values key) "") as [Hempty|Hgiven]; cbn.
  - split; [intros [] | intros [_ [Hne _]]; contradiction].
  - split.
    + intros [Heq|[]]. injection Heq as <- <-. now repeat split.
    + intros [-> [_ ->]]. now left.
Qed.

Lemma in_ageFilter values key sql s arg :
  In (s, arg) (ageFilter values key sql) <->
  s = sql /\ QueryOf values key <> "" /\
  exists n, arg = SqlInt n /\ Strconv.Atoi (QueryOf values key) = (n, None).
Proof.
  unfold ageFilter. cbv zeta.
  destruct (String.eqb_spec (QueryOf values key) "") as [Hempty|Hgiven]; cbn.
  - split; [intros [] | intros [_ [Hne _]]; contradiction].
  - destruct (Strconv.Atoi (QueryOf values key)) as [n [e|]]; cbn.
    + split; [intros [] | intros [_ [_ [m [_ Heq]]]]; discriminate].
    + split.
      * intros [Heq|[]]. injection Heq as <- <-. repeat split; try assumption.
        now exists n.
      * intros [-> [_ [m [-> Heq]]]]. injection Heq as ->. now left.
Qed.

Lemma in_filtersOf values s arg :
  In (s, arg) (filtersOf values) <->
  In (s, arg) (textFilter values "name" "name ILIKE ?") \/
  In (s, arg) (textFilter values "surname" "surname ILIKE ?") \/
  In (s, arg) (textFilter values "patronymic" "patronymic ILIKE ?") \/
  In (s, arg) (ageFilter values "age_min" "age >= ?") \/
  In (s, arg) (ageFilter values "age_max" "age <= ?") \/
  In (s, arg) (textFilter values "gender" "gender ILIKE ?") \/
  In (s, arg) (textFilter values "nationality" "nationality ILIKE ?").
Proof. unfold filtersOf. now rewrite !in_app_iff. Qed.

Ltac read_filters Hin :=
  repeat (destruct Hin as [Hin|Hin]);
  (apply in_textFilter in Hin || apply in_ageFilter in Hin);
  destruct Hin as [Hsql [Hgiven Harg]]; try discriminate Hsql.

Ltac pick_filter :=
  solve [ apply in_textFilter; now repeat split
        | apply in_ageFilter; repeat split; try assumption; eauto ].

Ltac find_filter :=
  first [ pick_filter | left; pick_filter | right; find_filter ].

(** X22. A text filter ([name], [surname], [patronymic], [gender],
    [nationality]) adds its condition exactly when its value in the query
    string is not empty, and the pattern is the value between two [%],
    as it came: a [%] or [_] in the value is not escaped. *)
Theorem GetPeople_text_filter (db : DB) (values : Values) (key sql : string) :
  In (key, sql) textFilters ->
  exists q,
    statements (actions (GetPeople db values)) = [q] /\
    forall arg,
      In (sql, arg) (Conditions q) <->
      QueryOf values key <> "" /\ arg = SqlText ("%" ++ QueryOf values key ++ "%")%string.
Proof.
  intros Hfilter.
  exists (statementOf values). split; [apply GetPeople_actions|].
  intros arg. rewrite conditions_statementOf, in_filtersOf.
  cbn in Hfilter.
  destruct Hfilter as [H|[H|[H|[H|[H|[]]]]]]; injection H as <- <-; split;
    try (intros Hin; read_filters Hin; now split);
    intros [Hne ->]; find_filter.
Qed.

Lemma GetPeople_text_filter_witness :
  exists q,
    statements (actions (GetPeople sampleDB [("surname", "50%_off"); ("name", "")])) = [q] /\
    forall arg,
      In ("surname ILIKE ?", arg) (Conditions q) <->
      QueryOf [("surname", "50%_off"); ("name", "")] "surname" <> "" /\
      arg = SqlText ("%" ++ QueryOf [("surname", "50%_off"); ("name", "")] "surname" ++ "%")%string.
Proof.
  apply (GetPeople_text_filter sampleDB [("surname", "50%_off"); ("name", "")]
           "surname" "surname ILIKE ?").
  right. left. reflexivity.
Defined.

(** X23. An age filter ([age_min], [age_max]) adds its condition exactly
    when its value is not empty and [Atoi] reads it, with the number read;
    a value that is no number adds nothing and is no error. *)
Theorem GetPeople_age_filter (db : DB) (values : Values) (key sql : string) :
  In (key, sql) ageFilters ->
  exists q,
    statements (actions (GetPeople db values)) = [q] /\
    responses (actions (GetPeople db values)) =
      [match FindAll db q with
       | inr people => PeopleResponse 200 people
       | inl _ => JSONResponse 500 (ErrorBody "Failed to retrieve people")
       end] /\
    forall arg,
      In (sql, arg) (Conditions q) <->
      QueryOf values key <> "" /\
      exists n, arg = SqlInt n /\ Strconv.Atoi (QueryOf values key) = (n, None).
Proof.
  intros Hfilter.
  destruct (GetPeople_actions db values) as [Hs [Hr _]].
  exists (statementOf values). split; [exact Hs|]. split; [exact Hr|].
  intros arg. rewrite conditions_statementOf, in_filtersOf.
  cbn in Hfilter.
  destruct Hfilter as [H|[H|[]]]; injection H as <- <-; split;
    try (intros Hin; read_filters Hin; now split);
    intros [Hne [n [-> Hn]]]; find_filter.
Qed.

Lemma GetPeople_age_filter_witness :
  exists q,
    statements (actions (GetPeople sampleDB [("age_min", "18"); ("age_max", "old")])) = [q] /\
    responses (actions (GetPeople sampleDB [("age_min", "18"); ("age_max", "old")])) =
      [match FindAll sampleDB q with
       | inr people => PeopleResponse 200 people
       | inl _ => JSONResponse 500 (ErrorBody "Failed to retrieve people")
       end] /\
    forall arg,
      In ("age <= ?", arg) (Conditions q) <->
      QueryOf [("age_min", "18"); ("age_max", "old")] "age_max" <> "" /\
      exists n, arg = SqlInt n /\
                Strconv.Atoi (QueryOf [("age_min", "18"); ("age_max", "old")] "age_max")
                = (n, None).
Proof.
  apply (GetPeople_age_filter sampleDB [("age_min", "18"); ("age_max", "old")]
           "age_max" "age <= ?").
  right. left. reflexivity.
Defined.

(** [Atoi] and the query string on concrete inputs. *)
Example Atoi_reads_signed_decimals :
  Strconv.Atoi "42" = (42, None) /\ Strconv.Atoi "-7" = (-7, None) /\
  Strconv.Atoi "+007" = (7, None) /\
  Strconv.Atoi "-9223372036854775808" = (Json.minInt, None).
Proof. repeat split; reflexivity. Qed.

Example Atoi_rejects :
  Strconv.Atoi "" = (0, Some Strconv.ErrSyntax) /\
  Strconv.Atoi "-" = (0, Some Strconv.ErrSyntax) /\
  Strconv.Atoi " 5" = (0, Some Strconv.ErrSyntax) /\
  Strconv.Atoi "1_000" = (0, Some Strconv.ErrSyntax) /\
  Strconv.Atoi "12a" = (0, Some Strconv.ErrSyntax) /\
  Strconv.Atoi "9223372036854775808" = (Json.maxInt, Some Strconv.ErrRange) /\
  Strconv.Atoi "-99999999999999999999" = (Json.minInt, Some Strconv.ErrRange) /\
  Strconv.Atoi "99999999999999999999x" = (Json.maxInt, Some Strconv.ErrRange).
Proof. repeat split; reflexivity. Qed.

Example GetPeople_filters_in_order :
  statements (actions (GetPeople sampleDB
                         [("nationality", "RU"); ("age_min", "18"); ("name", "Dmi");
                          ("age_max", "x"); ("page", "2")]))
  = [ {| Conditions := [ ("name ILIKE ?", SqlText "%Dmi%"); ("age >= ?", SqlInt 18);
                         ("nationality ILIKE ?", SqlText "%RU%") ];
         LimitTo := Some 10; OffsetBy := Some 10 |} ].
Proof. reflexivity. Qed.
